(** * Healthcare triage system: rule-based scoring and queue arithmetic

    A shallow embedding of the three scoring utilities of the repository

      - [models/symptom_analyzer.py]  (class LightweightSymptomAnalyzer)
      - [models/image_analyzer.py]    (class LightweightImageAnalyzer)
      - [utils/triage_logic.py]       (class TriageLogic)

    with the pain adjustment of the symptom page of [app.py],
    and the properties of them that the specification states.

    Conventions of the model.

    - Python floats are modelled by exact rationals ([Q]).  Every float
      comparison of the source is against an integer or against a constant
      whose nearest double decides the comparison the same way as the
      rational does, and the scores are quotients of small integers.
      Where a double enters a computation whose result is rounded (the
      scaling of a timedelta), it is the double itself ([Py.to_double]).
    - The four priority strings "CRITICAL", "URGENT", "MODERATE", "LOW" are
      the constructors of [Priority]; [priority_name] gives the string back.
    - Text is a [string] of ASCII characters; code points from 128 on are
      outside the model of [_clean_text] (they are kept as they are).
    - [datetime.timedelta] is an integer number of microseconds, as in
      CPython; a product that leaves the range of timedelta raises
      [OverflowError]. *)

From Stdlib Require Import ZArith QArith Qminmax Qround Bool List Lia.
From Stdlib Require Import Ascii String DecimalString.
From Stdlib Require Import Lqa Permutation Qabs.
Import ListNotations.

Local Open Scope string_scope.
Local Open Scope Z_scope.

(** ** Priority tiers *)

Inductive Priority : Type := CRITICAL | URGENT | MODERATE | LOW.

Definition priority_name (p : Priority) : string :=
  match p with
  | CRITICAL => "CRITICAL"
  | URGENT => "URGENT"
  | MODERATE => "MODERATE"
  | LOW => "LOW"
  end.

(** ** Python built-ins used by the source *)

Module Py.

(** [sub in s] on [str]: [sub] occurs in [s] as a contiguous substring. *)
Fixpoint str_in (sub s : string) : bool :=
  if prefix sub s then true
  else match s with
       | EmptyString => false
       | String _ s' => str_in sub s'
       end.

(** Number of positions of [s] at which [sub] starts. *)
Fixpoint occurrences (sub s : string) : nat :=
  match s with
  | EmptyString => if prefix sub s then 1%nat else 0%nat
  | String _ s' => ((if prefix sub s then 1 else 0) + occurrences sub s')%nat
  end.

(** [str.isspace] on an ASCII character: tab, line feed, vertical tab,
    form feed, carriage return, the four separators 0x1c..0x1f, space.
    The class [\s] of [re] on a [str] pattern is the same set. *)
Definition is_space (c : ascii) : bool :=
  let n := N_of_ascii c in
  ((9 <=? n) && (n <=? 13) || (28 <=? n) && (n <=? 32))%N.

(** The class [\w] of [re] on ASCII: letters, digits, underscore.  Bytes
    from 128 on, which are outside the model, count as word characters,
    so that [_clean_text] leaves them alone. *)
Definition is_word (c : ascii) : bool :=
  let n := N_of_ascii c in
  ((48 <=? n) && (n <=? 57) || (65 <=? n) && (n <=? 90)
   || (97 <=? n) && (n <=? 122) || (n =? 95) || (128 <=? n))%N.

(** [str.lower] on one character. *)
Definition lower_char (c : ascii) : ascii :=
  let n := N_of_ascii c in
  if ((65 <=? n) && (n <=? 90))%N then ascii_of_N (n + 32) else c.

Fixpoint lstrip (l : list ascii) : list ascii :=
  match l with
  | c :: l' => if is_space c then lstrip l' else l
  | [] => []
  end.

(** [str.strip()] with no argument, on ASCII text. *)
Definition strip (l : list ascii) : list ascii :=
  rev (lstrip (rev (lstrip l))).

(** [re.sub(r'[^\w\s]', ' ', text)] *)
Definition sub_non_word_space (l : list ascii) : list ascii :=
  map (fun c => if is_word c || is_space c then c else " "%char) l.

(** [re.sub(r'\s+', ' ', text)]: every maximal run of whitespace becomes
    one space. *)
Fixpoint sub_space_runs (l : list ascii) : list ascii :=
  match l with
  | [] => []
  | c :: l' =>
      if is_space c then
        match l' with
        | c' :: _ => if is_space c' then sub_space_runs l'
                     else " "%char :: sub_space_runs l'
        | [] => [" "%char]
        end
      else c :: sub_space_runs l'
  end.

(** [len(text.split())]: the number of maximal runs of non-whitespace. *)
Fixpoint count_words (in_word : bool) (l : list ascii) : nat :=
  match l with
  | [] => 0%nat
  | c :: l' =>
      if is_space c then count_words false l'
      else if in_word then count_words true l'
           else S (count_words true l')
  end.

Definition split_len (s : string) : nat :=
  count_words false (list_ascii_of_string s).

(** Rounding of a rational to the nearest integer, ties to the even one. *)
Definition round_half_even (x : Q) : Z :=
  let f := Qfloor x in
  match Qcompare (x - inject_Z f) (1 # 2) with
  | Lt => f
  | Gt => f + 1
  | Eq => if Z.even f then f else f + 1
  end.

(** [round(x, ndigits)] on a float, over the rationals. *)
Definition round (x : Q) (ndigits : nat) : Q :=
  let scale := inject_Z (10 ^ Z.of_nat ndigits) in
  (inject_Z (round_half_even (x * scale)) / scale)%Q.

(** [a > b] on numbers. *)
Definition Qgt_bool (a b : Q) : bool := negb (Qle_bool a b).

(** [str(n)] for an integer. *)
Definition str_of_int (n : Z) : string :=
  NilZero.string_of_int (Z.to_int n).

(** Whether every character of the text is an ASCII character.  On such
    texts [lower_char], [is_space], [is_word] and [strip] are exactly
    [str.lower], [str.isspace], the classes of [re] and [str.strip]. *)
Definition is_ascii (s : string) : bool :=
  forallb (fun c => (N_of_ascii c <? 128)%N) (list_ascii_of_string s).

(** The double nearest to a rational, ties to the even mantissa: the value
    of a float literal and the result of a float operation on the exact
    result.  For values in the normal range of binary64, the only ones
    that occur here. *)
Definition to_double (x : Q) : Q :=
  match Qnum x with
  | Z0 => 0%Q
  | _ =>
      let a := Qabs x in
      let e0 := Z.log2 (Qnum a) - Z.log2 (Zpos (Qden a)) in
      let e := if Qle_bool (Qpower 2 e0) a then e0 else e0 - 1 in
      let ulp := Qpower 2 (e - 52) in
      let r := (inject_Z (round_half_even (a / ulp)) * ulp)%Q in
      if Qnum x <? 0 then (- r)%Q else r
  end.

(** [d.get(key)] on a dict with [str] keys, kept in insertion order; [None]
    stands for a missing key ([key in d] is false). *)
Fixpoint dict_get {A : Type} (d : list (string * A)) (key : string)
  : option A :=
  match d with
  | [] => None
  | (k, v) :: d' => if String.eqb k key then Some v else dict_get d' key
  end.

End Py.

(** ** models/symptom_analyzer.py *)

Module SymptomAnalyzer.

(** One value of the dict [self.severity_keywords]. *)
Record SeverityData : Type := {
  keywords : list string;
  score : Z
}.

(** [self.severity_keywords], in insertion order (the order in which
    [.items()] and [.values()] iterate). *)
Definition severity_keywords : list (string * SeverityData) :=
  [ ("critical",
     {| keywords := ["chest pain"; "difficulty breathing"; "severe bleeding";
                     "unconscious"; "stroke"; "heart attack";
                     "severe allergic reaction"];
        score := 10 |});
    ("urgent",
     {| keywords := ["high fever"; "severe pain"; "vomiting blood";
                     "severe headache"; "difficulty swallowing";
                     "severe burns"];
        score := 7 |});
    ("moderate",
     {| keywords := ["fever"; "headache"; "nausea"; "dizziness"; "fatigue";
                     "cough"; "stomach pain"];
        score := 4 |});
    ("low",
     {| keywords := ["mild pain"; "runny nose"; "slight fever"; "minor cut";
                     "bruise"; "sore throat"];
        score := 2 |}) ].

(** [self.specialty_mapping], in insertion order. *)
Definition specialty_mapping : list (string * list string) :=
  [ ("Emergency", ["chest pain"; "difficulty breathing"; "severe bleeding";
                   "unconscious"; "stroke"]);
    ("Cardiology", ["chest pain"; "heart palpitations";
                    "shortness of breath"; "irregular heartbeat"]);
    ("Neurology", ["headache"; "dizziness"; "seizure"; "numbness";
                   "confusion"; "memory loss"]);
    ("Gastroenterology", ["stomach pain"; "nausea"; "vomiting"; "diarrhea";
                          "constipation"; "acid reflux"]);
    ("Dermatology", ["rash"; "skin irritation"; "itching"; "acne";
                     "mole changes"; "skin lesion"]);
    ("Orthopedics", ["joint pain"; "back pain"; "fracture"; "sprain";
                     "muscle pain"; "bone pain"]);
    ("General Practice", ["fever"; "fatigue"; "general discomfort";
                          "cold symptoms"; "flu symptoms"]) ].

(** [_clean_text]: lower-case and strip, then punctuation to spaces, then
    whitespace runs to one space. *)
Definition _clean_text (text : string) : string :=
  let text := Py.strip (map Py.lower_char (list_ascii_of_string text)) in
  let text := Py.sub_non_word_space text in
  let text := Py.sub_space_runs text in
  string_of_list_ascii text.

(** The inner loop of [_calculate_severity_lightweight] over the keywords
    of one severity class; the state is [(total_score, matches)]. *)
Definition scan_keywords (text : string) (data : SeverityData)
           (st : Z * Z) : Z * Z :=
  fold_left
    (fun (st : Z * Z) (keyword : string) =>
       let (total_score, matches) := st in
       if Py.str_in keyword text
       then (total_score + score data, matches + 1)
       else (total_score, matches))
    (keywords data) st.

(** The outer loop, over [self.severity_keywords.items()]. *)
Definition scan_severity (text : string) : Z * Z :=
  fold_left
    (fun (st : Z * Z) (item : string * SeverityData) =>
       scan_keywords text (snd item) st)
    severity_keywords (0, 0).

Definition _calculate_severity_lightweight (text : string) : Q :=
  let (total_score, matches) := scan_severity text in
  if matches =? 0 then 3
  else
    let avg_score := (inject_Z total_score / inject_Z matches)%Q in
    Qmin avg_score 10.

(** [_determine_specialty_lightweight]: the hit count of one specialty. *)
Definition specialty_score (text : string) (kws : list string) : Z :=
  fold_left
    (fun (score : Z) (keyword : string) =>
       if Py.str_in keyword text then score + 1 else score)
    kws 0.

(** The dict [specialty_scores], in insertion order. *)
Definition specialty_scores (text : string) : list (string * Z) :=
  map (fun item : string * list string =>
         (fst item, specialty_score text (snd item)))
      specialty_mapping.

(** [max(d, key=d.get)]: the first key, in iteration order, whose value
    is maximal. *)
Definition max_by_value (d : list (string * Z)) : option string :=
  match d with
  | [] => None
  | first :: rest =>
      Some (fst (fold_left
                   (fun (best kv : string * Z) =>
                      if snd best <? snd kv then kv else best)
                   rest first))
  end.

Definition _determine_specialty_lightweight (text : string) : string :=
  let scores := specialty_scores text in
  if negb (existsb (fun kv : string * Z => negb (snd kv =? 0)) scores)
  then "General Practice"
  else match max_by_value scores with
       | Some specialty => specialty
       | None => "General Practice"
       end.

Definition _calculate_priority (severity_score : Q) : Priority :=
  if Qle_bool 8 severity_score then CRITICAL
  else if Qle_bool 6 severity_score then URGENT
  else if Qle_bool 4 severity_score then MODERATE
  else LOW.

(** The list [found_symptoms] that the loops of [_extract_key_symptoms]
    build by [append]. *)
Definition found_symptoms (text : string) : list string :=
  fold_left
    (fun (found : list string) (item : string * SeverityData) =>
       fold_left
         (fun (found : list string) (keyword : string) =>
            if Py.str_in keyword text then (found ++ [keyword])%list else found)
         (keywords (snd item)) found)
    severity_keywords [].

(** [list(set(l))]: CPython enumerates a set in an order that depends on
    the hashes of its elements (randomised per process for [str]).  The
    model takes the enumeration as given and keeps what every such order
    satisfies: the listing has no duplicates and the elements of [l]. *)
Record SetOrder : Type := {
  list_of_set : list string -> list string;
  list_of_set_NoDup : forall l, NoDup (list_of_set l);
  list_of_set_In : forall l x, In x (list_of_set l) <-> In x l
}.

Definition _extract_key_symptoms (o : SetOrder) (text : string)
  : list string :=
  firstn 5 (list_of_set o (found_symptoms text)).

Definition _generate_recommendations (severity_score : Q)
           (specialty : string) : list string :=
  if Qle_bool 8 severity_score then
    [ "🚨 Seek immediate emergency care";
        "📞 Call emergency services if symptoms worsen";
        "🚫 Do not drive yourself to hospital";
        "⏰ Time-sensitive condition - act now" ]
  else if Qle_bool 6 severity_score then
    [ "⚡ Schedule urgent appointment with " ++ specialty;
        "👀 Monitor symptoms closely";
        "🕐 Seek care within 24 hours";
        "📝 Document symptom progression" ]
  else if Qle_bool 4 severity_score then
    [ "📅 Schedule appointment with " ++ specialty;
        "📊 Monitor symptoms for changes";
        "💊 Consider appropriate over-the-counter remedies";
        "🏠 Rest and maintain hydration" ]
  else
    [ "📋 Routine consultation with " ++ specialty ++ " if symptoms persist";
        "🏠 Home care and monitoring";
        "💊 Over-the-counter remedies may help";
        "📞 Contact healthcare provider if symptoms worsen" ].

(** [wait_times.get(priority, "2-4 hours")]; the default is not reached
    on the four tiers. *)
Definition _estimate_wait_time (priority : Priority) : string :=
  match priority with
  | CRITICAL => "Immediate (0-15 minutes)"
  | URGENT => "Priority (30-60 minutes)"
  | MODERATE => "Standard (1-3 hours)"
  | LOW => "Routine (2-4 hours)"
  end.

(** The generator expression of [_calculate_confidence]: one for every
    keyword of every class that occurs in the text. *)
Definition symptom_matches (text : string) : Z :=
  fold_left
    (fun (n : Z) (item : string * SeverityData) =>
       fold_left
         (fun (n : Z) (keyword : string) =>
            if Py.str_in keyword text then n + 1 else n)
         (keywords (snd item)) n)
    severity_keywords 0.

Definition _calculate_confidence (text : string) : Q :=
  let word_count := Z.of_nat (Py.split_len text) in
  if word_count =? 0 then 0
  else
    let confidence :=
      Qmin (inject_Z (symptom_matches text) / inject_Z word_count * 100) 95
    in
    Py.round confidence 1.

(** The dict returned by [analyze_symptoms]. *)
Record Analysis : Type := {
  severity_score : Q;
  priority_level : Priority;
  recommended_specialty : string;
  key_symptoms : list string;
  recommendations : list string;
  estimated_wait_time : string;
  urgency_flag : bool;
  confidence_score : Q
}.

Definition analyze_symptoms (o : SetOrder) (symptom_text : string)
  : Analysis :=
  let cleaned_text := _clean_text symptom_text in
  let severity := _calculate_severity_lightweight cleaned_text in
  let specialty := _determine_specialty_lightweight cleaned_text in
  let priority := _calculate_priority severity in
  let key := _extract_key_symptoms o cleaned_text in
  let recs := _generate_recommendations severity specialty in
  {| severity_score := Py.round severity 2;
     priority_level := priority;
     recommended_specialty := specialty;
     key_symptoms := key;
     recommendations := recs;
     estimated_wait_time := _estimate_wait_time priority;
     urgency_flag := Py.Qgt_bool severity 7;
     confidence_score := _calculate_confidence cleaned_text |}.

(** One enumeration order (each element at its last position in [l]).
    It shows that [SetOrder] is inhabited and lets the model run. *)
Definition insertion_order : SetOrder :=
  {| list_of_set := nodup string_dec;
     list_of_set_NoDup := NoDup_nodup string_dec;
     list_of_set_In := nodup_In string_dec |}.

End SymptomAnalyzer.

(** ** utils/triage_logic.py *)

Module TriageLogic.

(** [timedelta(minutes=n)] and [timedelta(hours=n)], in microseconds. *)
Definition minutes (n : Z) : Z := n * 60000000.
Definition hours (n : Z) : Z := n * 3600000000.

(** [timedelta * float]: the exact product, rounded to the nearest
    microsecond, ties to even. *)
Definition timedelta_mul (td : Z) (f : Q) : Z :=
  Py.round_half_even (inject_Z td * f).

(** [self.priority_weights] *)
Definition priority_weights (p : Priority) : Q :=
  match p with
  | CRITICAL => 1
  | URGENT => 8 # 10
  | MODERATE => 5 # 10
  | LOW => 2 # 10
  end.

(** [self.wait_time_thresholds] *)
Definition wait_time_thresholds (p : Priority) : Z :=
  match p with
  | CRITICAL => minutes 15
  | URGENT => hours 1
  | MODERATE => hours 3
  | LOW => hours 4
  end.

(** An entry of [current_queue]: a dict with a ['priority'] that is one
    of the four tiers; the arrival time is carried along and not read. *)
Record Patient : Type := {
  priority : Priority;
  arrival_time : Z
}.

Definition _get_priority_level (severity_score : Q) : Priority :=
  if Qle_bool 8 severity_score then CRITICAL
  else if Qle_bool 6 severity_score then URGENT
  else if Qle_bool 4 severity_score then MODERATE
  else LOW.

Definition calculate_queue_position (severity_score : Q) (arrival : Z)
           (current_queue : list Patient) : Z * Priority :=
  let priority := _get_priority_level severity_score in
  let weight := priority_weights priority in
  let position :=
    fold_left
      (fun (position : Z) (patient : Patient) =>
         if Py.Qgt_bool (priority_weights (TriageLogic.priority patient)) weight
         then position + 1 else position)
      current_queue 1 in
  (position, priority).

(** [int(wait_time.total_seconds() / 60)] and the like are whole minutes and
    hours of a duration that is at least one minute on these branches.
    The code divides the float [total_seconds()]; the quotients are the
    integer ones for durations below 10^16 microseconds (some 300 years),
    far above the four hours that [estimate_wait_time] formats at most. *)
Definition _format_wait_time (wait_time : Z) : string :=
  if wait_time <? minutes 1 then "Immediate"
  else if wait_time <? hours 1 then
    let mins := wait_time / 60000000 in
    Py.str_of_int mins ++ " minutes"
  else
    let hrs := wait_time / 3600000000 in
    let mins := (wait_time mod 3600000000) / 60000000 in
    if mins =? 0 then Py.str_of_int hrs ++ " hours"
    else Py.str_of_int hrs ++ " hours " ++ Py.str_of_int mins ++ " minutes".

(** The default of the parameter [avg_processing_time]. *)
Definition default_processing_time : Z := minutes 15.

(** [timedelta.min] and [timedelta.max]: -999999999 days and one
    microsecond less than 1000000000 days.  An operation whose result
    leaves this range raises [OverflowError]. *)
Definition timedelta_min : Z := -999999999 * 86400000000.
Definition timedelta_max : Z := 1000000000 * 86400000000 - 1.

Definition timedelta_ok (td : Z) : bool :=
  (timedelta_min <=? td) && (td <=? timedelta_max).

(** What a call does: it returns a value or raises [OverflowError]. *)
Inductive outcome (A : Type) : Type :=
| Returns (a : A)
| OverflowError.
Arguments Returns {A} a.
Arguments OverflowError {A}.

(** [1 - priority_factor] as the code computes it: the weight is the double
    of its literal and the difference is rounded to a double. *)
Definition float_factor (priority : Priority) : Q :=
  Py.to_double (1 - Py.to_double (priority_weights priority)).

(** The local [final_wait] of [estimate_wait_time], for a [base_wait] that
    is a timedelta. *)
Definition final_wait (queue_position : Z) (priority : Priority)
           (avg_processing_time : Z) : Z :=
  let base_wait := queue_position * avg_processing_time in
  let adjusted_wait := timedelta_mul base_wait (float_factor priority) in
  let max_wait := wait_time_thresholds priority in
  Z.min adjusted_wait max_wait.

(** [estimate_wait_time]: the product [queue_position * avg_processing_time]
    is computed first and raises when it is no timedelta; the scaled wait
    is smaller in magnitude, so that nothing else raises. *)
Definition estimate_wait_time (queue_position : Z) (priority : Priority)
           (avg_processing_time : Z) : outcome string :=
  let base_wait := queue_position * avg_processing_time in
  if timedelta_ok base_wait
  then Returns (_format_wait_time
                  (final_wait queue_position priority avg_processing_time))
  else OverflowError.

Definition _get_room_type (priority : Priority) : string :=
  match priority with
  | CRITICAL => "Emergency Room"
  | URGENT => "Urgent Care Room"
  | MODERATE => "Examination Room"
  | LOW => "Consultation Room"
  end.

Definition _get_staff_level (priority : Priority) : string :=
  match priority with
  | CRITICAL => "Emergency Team"
  | URGENT => "Urgent Care Team"
  | MODERATE => "Nurse + Doctor"
  | LOW => "Nurse"
  end.

(** The local dict [base_equipment] of [_get_equipment]. *)
Definition base_equipment (priority : Priority) : list string :=
  match priority with
  | CRITICAL => ["Defibrillator"; "Ventilator"; "IV Supplies"]
  | URGENT => ["IV Supplies"; "Monitoring Equipment"]
  | MODERATE => ["Basic Medical Supplies"]
  | LOW => ["Basic Medical Supplies"]
  end.

(** The local dict [specialty_equipment] of [_get_equipment]. *)
Definition specialty_equipment : list (string * list string) :=
  [ ("Cardiology", ["ECG Machine"; "Blood Pressure Monitor"]);
    ("Neurology", ["Neurological Assessment Kit"]);
    ("Dermatology", ["Dermatoscope"; "Skin Biopsy Kit"]);
    ("Orthopedics", ["X-ray Machine"; "Splinting Supplies"]) ].

(** [_get_equipment]: a copy of the base list, extended when the specialty
    is a key of [specialty_equipment]. *)
Definition _get_equipment (priority : Priority) (specialty : string)
  : list string :=
  let equipment := base_equipment priority in
  match Py.dict_get specialty_equipment specialty with
  | Some extra => (equipment ++ extra)%list
  | None => equipment
  end.

(** The dict returned by [calculate_resource_allocation]. *)
Record Resources : Type := {
  room_type : string;
  staff_level : string;
  equipment : list string
}.

Definition calculate_resource_allocation (severity_score : Q)
           (specialty : string) : Resources :=
  let priority := _get_priority_level severity_score in
  {| room_type := _get_room_type priority;
     staff_level := _get_staff_level priority;
     equipment := _get_equipment priority specialty |}.

End TriageLogic.

(** ** models/image_analyzer.py *)

Module ImageAnalyzer.

(** The dict returned by [_analyze_colors]. *)
Record ColorAnalysis : Type := {
  mean_hue : Q;
  mean_saturation : Q;
  mean_brightness : Q;
  red_percentage : Q;
  color_uniformity : Q
}.

(** The dict returned by [_analyze_texture]. *)
Record TextureAnalysis : Type := {
  texture_variance : Q;
  edge_density : Q;
  smoothness : Q
}.

(** The dict returned by [_analyze_shapes]. *)
Record ShapeAnalysis : Type := {
  contour_count : Z;
  largest_area : Q;
  circularity : Q;
  irregularity_score : Q
}.

Definition _calculate_image_severity (color_analysis : ColorAnalysis)
           (texture_analysis : TextureAnalysis)
           (shape_analysis : ShapeAnalysis) : Z :=
  let severity := 0 in
  let severity :=
    if Py.Qgt_bool (red_percentage color_analysis) 20
    then severity + 3 else severity in
  let severity :=
    if Py.Qgt_bool (color_uniformity color_analysis) 50
    then severity + 2 else severity in
  let severity :=
    if Py.Qgt_bool (texture_variance texture_analysis) 1000
    then severity + 2 else severity in
  let severity :=
    if Py.Qgt_bool (edge_density texture_analysis) 30
    then severity + 1 else severity in
  let severity :=
    if Py.Qgt_bool (irregularity_score shape_analysis) (7 # 10)
    then severity + 2 else severity in
  let severity :=
    if 5 <? contour_count shape_analysis
    then severity + 1 else severity in
  Z.min severity 10.

(** The ['confidence'] entry: [min(85.0, max(40.0, severity_score * 10))]. *)
Definition confidence_of (severity_score : Z) : Z :=
  Z.min 85 (Z.max 40 (severity_score * 10)).

Definition _generate_findings (color_analysis : ColorAnalysis)
           (texture_analysis : TextureAnalysis)
           (shape_analysis : ShapeAnalysis) : list string :=
  let findings := [] in
  let findings :=
    if Py.Qgt_bool (red_percentage color_analysis) 15
    then (findings ++ ["Possible inflammation or irritation detected"])%list
    else findings in
  let findings :=
    if Py.Qgt_bool (texture_variance texture_analysis) 1500
    then (findings ++ ["Irregular texture patterns observed"])%list
    else findings in
  let findings :=
    if Py.Qgt_bool (irregularity_score shape_analysis) (6 # 10)
    then (findings ++ ["Irregular shape characteristics noted"])%list
    else findings in
  let findings :=
    if Py.Qgt_bool (color_uniformity color_analysis) 60
    then (findings ++ ["Non-uniform coloration detected"])%list
    else findings in
  match findings with
  | [] => ["No significant abnormalities detected in basic analysis"]
  | _ => findings
  end.

(** The dict returned by [_analyze_image_features]. *)
Record AnalysisResults : Type := {
  color_analysis : ColorAnalysis;
  texture_analysis : TextureAnalysis;
  shape_analysis : ShapeAnalysis;
  severity_score : Z;
  confidence : Z;
  findings : list string
}.

(** The literals are the bytes of the source file. *)
Definition _generate_image_recommendations (analysis_results : AnalysisResults)
  : list string :=
  let severity := severity_score analysis_results in
  if 7 <=? severity then
    [ "ğŸš¨ Immediate medical attention recommended";
        "ğŸ“¸ Document changes with photos";
        "ğŸ¥ Visit emergency care or urgent care center";
        "ğŸ“ Note any associated symptoms" ]
  else if 4 <=? severity then
    [ "ğŸ‘¨â€âš•ï¸ Schedule appointment with healthcare provider";
        "ğŸ“Š Monitor for changes";
        "ğŸ“¸ Take photos to track progression";
        "ğŸ©º Consider dermatology consultation if skin-related" ]
  else
    [ "ğŸ‘€ Continue monitoring";
        "ğŸ  Basic home care may be sufficient";
        "ğŸ“ Contact healthcare provider if symptoms worsen";
        "ğŸ“ Keep record of any changes" ].

(** A computation that returns a value or raises an [Exception]; the
    string is [str(e)]. *)
Inductive result (A : Type) : Type :=
| Ok (a : A)
| Raise (e : string).
Arguments Ok {A} a.
Arguments Raise {A} e.

Definition bind {A B : Type} (m : result A) (k : A -> result B) : result B :=
  match m with
  | Ok a => k a
  | Raise e => Raise e
  end.

Notation "x <- m ;; k" := (bind m (fun x => k))
  (at level 61, m at next level, right associativity).

(** The two shapes of the dict returned by [analyze_image]. *)
Record Report : Type := {
  image_type : string;
  analysis_results : AnalysisResults;
  recommendations : list string;
  confidence_score : Z;
  requires_professional_review : bool
}.

Record ErrorReport : Type := {
  error : string;
  error_recommendations : list string;
  error_confidence_score : Z;
  error_requires_professional_review : bool
}.

Inductive ImageResult : Type :=
| Analysed (r : Report)
| Failed (r : ErrorReport).

(** Reading the returned dict: [d.get(key)]. *)
Definition get_error (d : ImageResult) : option string :=
  match d with Analysed _ => None | Failed r => Some (error r) end.

Definition get_analysis_results (d : ImageResult) : option AnalysisResults :=
  match d with Analysed r => Some (analysis_results r) | Failed _ => None end.

Definition get_recommendations (d : ImageResult) : list string :=
  match d with
  | Analysed r => recommendations r
  | Failed r => error_recommendations r
  end.

Definition get_requires_professional_review (d : ImageResult) : bool :=
  match d with
  | Analysed r => requires_professional_review r
  | Failed r => error_requires_professional_review r
  end.

Definition get_confidence_score (d : ImageResult) : Z :=
  match d with
  | Analysed r => confidence_score r
  | Failed r => error_confidence_score r
  end.

Section Analyzer.

(** The library calls of the source (base64, PIL, NumPy, OpenCV) are
    taken as given; each of them may raise. *)
Variable ImageData : Type.
Variable Image : Type.

(** Lines 27-34: [b64decode] and [Image.open] on a [str], then
    [np.array] and [cv2.cvtColor]. *)
Variable to_cv_image : ImageData -> result Image.
(** Lines 58-63: [cv2.resize] to a width of 512 when wider. *)
Variable resize : Image -> result Image.
Variable _analyze_colors : Image -> result ColorAnalysis.
Variable _analyze_texture : Image -> result TextureAnalysis.
Variable _analyze_shapes : Image -> result ShapeAnalysis.

Definition _analyze_image_features (image : Image) (image_type : string)
  : result AnalysisResults :=
  image <- resize image ;;
  color <- _analyze_colors image ;;
  texture <- _analyze_texture image ;;
  shape <- _analyze_shapes image ;;
  let severity := _calculate_image_severity color texture shape in
  Ok {| color_analysis := color;
        texture_analysis := texture;
        shape_analysis := shape;
        severity_score := severity;
        confidence := confidence_of severity;
        findings := _generate_findings color texture shape |}.

(** The body of the [try] block of [analyze_image]. *)
Definition try_analyze (image_data : ImageData) (image_type : string)
  : result Report :=
  cv_image <- to_cv_image image_data ;;
  results <- _analyze_image_features cv_image image_type ;;
  Ok {| image_type := image_type;
        analysis_results := results;
        recommendations := _generate_image_recommendations results;
        confidence_score := confidence results;
        requires_professional_review := 6 <? severity_score results |}.

(** [analyze_image]: the [try] block with its [except Exception]. *)
Definition analyze_image (image_data : ImageData) (image_type : string)
  : ImageResult :=
  match try_analyze image_data image_type with
  | Ok report => Analysed report
  | Raise e =>
      Failed
        {| error := "Image analysis failed: " ++ e;
           error_recommendations :=
             ["Please consult healthcare professional for proper evaluation"];
           error_confidence_score := 0;
           error_requires_professional_review := true |}
  end.

End Analyzer.

End ImageAnalyzer.

(** ** app.py: the symptom page *)

Module App.

(** Lines 131-133 of [symptom_analysis_page]: the severity score of the
    returned dict is replaced by
    [min(results['severity_score'] + (pain_scale - 5) * 0.5, 10)] and the
    priority is computed again from it; the other entries stay. *)
Definition adjust_for_pain (results : SymptomAnalyzer.Analysis)
           (pain_scale : Z) : SymptomAnalyzer.Analysis :=
  let adjusted_severity :=
    Qmin (SymptomAnalyzer.severity_score results
          + inject_Z (pain_scale - 5) * (1 # 2))%Q 10 in
  {| SymptomAnalyzer.severity_score := adjusted_severity;
     SymptomAnalyzer.priority_level :=
       SymptomAnalyzer._calculate_priority adjusted_severity;
     SymptomAnalyzer.recommended_specialty :=
       SymptomAnalyzer.recommended_specialty results;
     SymptomAnalyzer.key_symptoms := SymptomAnalyzer.key_symptoms results;
     SymptomAnalyzer.recommendations :=
       SymptomAnalyzer.recommendations results;
     SymptomAnalyzer.estimated_wait_time :=
       SymptomAnalyzer.estimated_wait_time results;
     SymptomAnalyzer.urgency_flag := SymptomAnalyzer.urgency_flag results;
     SymptomAnalyzer.confidence_score :=
       SymptomAnalyzer.confidence_score results |}.

(** The button handler of [symptom_analysis_page] (lines 121-154), without
    its display calls: [None] stands for the branch that only shows
    "Please describe your symptoms before analyzing." *)
Definition analyze_button (o : SymptomAnalyzer.SetOrder)
           (symptom_text : string) (pain_scale : Z)
  : option SymptomAnalyzer.Analysis :=
  match Py.strip (list_ascii_of_string symptom_text) with
  | [] => None
  | _ :: _ =>
      Some (adjust_for_pain
              (SymptomAnalyzer.analyze_symptoms o symptom_text) pain_scale)
  end.

End App.

(** ** Vocabulary of the specification *)

Module Spec.

(** Every keyword of [severity_keywords] with the score of its class, in
    the order in which the loops visit them. *)
Definition entries_of (data : SymptomAnalyzer.SeverityData)
  : list (string * Z) :=
  map (fun k => (k, SymptomAnalyzer.score data))
      (SymptomAnalyzer.keywords data).

Definition keyword_scores : list (string * Z) :=
  flat_map (fun item : string * SymptomAnalyzer.SeverityData =>
              entries_of (snd item))
           SymptomAnalyzer.severity_keywords.

Definition all_keywords : list string := map fst keyword_scores.

(** The keywords that occur in the text, each listed once. *)
Definition matched (text : string) : list (string * Z) :=
  filter (fun e : string * Z => Py.str_in (fst e) text) keyword_scores.

Definition sum_scores (l : list (string * Z)) : Z :=
  fold_right (fun e acc => snd e + acc) 0 l.

(** The severity score when the sum and the count grow once for every
    occurrence of a keyword in the text: a keyword that occurs twice
    counts twice. *)
Definition severity_per_occurrence (text : string) : Q :=
  let total_score :=
    fold_right (fun e acc =>
                  snd e * Z.of_nat (Py.occurrences (fst e) text) + acc)
               0 keyword_scores in
  let matches :=
    fold_right (fun e acc => Z.of_nat (Py.occurrences (fst e) text) + acc)
               0 keyword_scores in
  if matches =? 0 then 3
  else Qmin (inject_Z total_score / inject_Z matches) 10.

(** A bonus of [k] points when the condition holds. *)
Definition bonus (cond : bool) (k : Z) : Z := if cond then k else 0.

(** The additive rule of the image severity, as the sum of its bonuses. *)
Definition additive_rule (red_percentage hue_std texture_variance
                            edge_density irregularity : Q)
           (contour_count : Z) : Z :=
  bonus (Py.Qgt_bool red_percentage 20) 3
  + bonus (Py.Qgt_bool hue_std 50) 2
  + bonus (Py.Qgt_bool texture_variance 1000) 2
  + bonus (Py.Qgt_bool edge_density 30) 1
  + bonus (Py.Qgt_bool irregularity (7 # 10)) 2
  + bonus (5 <? contour_count) 1.

(** [clamp x lo hi] *)
Definition clamp (x lo hi : Z) : Z :=
  if x <? lo then lo else if hi <? x then hi else x.

(** The number of queue entries whose weight exceeds [weight]. *)
Definition heavier (weight : Q) (queue : list TriageLogic.Patient) : nat :=
  List.length
    (filter (fun p : TriageLogic.Patient =>
               Py.Qgt_bool
                 (TriageLogic.priority_weights (TriageLogic.priority p))
                 weight)
            queue).

(** An ASCII capital letter. *)
Definition is_upper (c : ascii) : bool :=
  let n := N_of_ascii c in ((65 <=? n) && (n <=? 90))%N.

(** No two neighbours of the list are both whitespace. *)
Fixpoint no_adjacent_spaces (l : list ascii) : bool :=
  match l with
  | [] => true
  | c :: l' =>
      match l' with
      | [] => true
      | c' :: _ => negb (Py.is_space c && Py.is_space c')
      end && no_adjacent_spaces l'
  end.

(** Whether the list starts with a whitespace character. *)
Definition head_is_space (l : list ascii) : bool :=
  match l with
  | [] => false
  | c :: _ => Py.is_space c
  end.

(** The keywords of the severity class [name]. *)
Definition class_keywords (name : string) : list string :=
  match Py.dict_get SymptomAnalyzer.severity_keywords name with
  | Some data => SymptomAnalyzer.keywords data
  | None => []
  end.

(** The recommendations of [_generate_image_recommendations] for a
    severity of 7 or more. *)
Definition immediate_attention : list string :=
  [ "ğŸš¨ Immediate medical attention recommended";
    "ğŸ“¸ Document changes with photos";
    "ğŸ¥ Visit emergency care or urgent care center";
    "ğŸ“ Note any associated symptoms" ].

(** The finding of [_generate_findings] when no rule fires. *)
Definition no_abnormalities : string :=
  "No significant abnormalities detected in basic analysis".

(** The display of a number of whole minutes, as the three branches of
    [_format_wait_time] write it. *)
Definition render_minutes (q : Z) : string :=
  if (q <? 1)%Z then "Immediate"
  else if (q <? 60)%Z then Py.str_of_int q ++ " minutes"
  else if (q mod 60 =? 0)%Z then Py.str_of_int (q / 60) ++ " hours"
  else Py.str_of_int (q / 60) ++ " hours "
       ++ Py.str_of_int (q mod 60) ++ " minutes".


End Spec.

(** ** Concrete inputs *)

Module Examples.

(** Features of an image on which only the red-percentage rule fires. *)
Definition colors : ImageAnalyzer.ColorAnalysis :=
  {| ImageAnalyzer.mean_hue := 5;
     ImageAnalyzer.mean_saturation := 120;
     ImageAnalyzer.mean_brightness := 130;
     ImageAnalyzer.red_percentage := 25;
     ImageAnalyzer.color_uniformity := 10 |}.

Definition texture : ImageAnalyzer.TextureAnalysis :=
  {| ImageAnalyzer.texture_variance := 500;
     ImageAnalyzer.edge_density := 10;
     ImageAnalyzer.smoothness := 90 |}.

Definition shapes : ImageAnalyzer.ShapeAnalysis :=
  {| ImageAnalyzer.contour_count := 2;
     ImageAnalyzer.largest_area := 100;
     ImageAnalyzer.circularity := 8 # 10;
     ImageAnalyzer.irregularity_score := 2 # 10 |}.

Definition results : ImageAnalyzer.AnalysisResults :=
  {| ImageAnalyzer.color_analysis := colors;
     ImageAnalyzer.texture_analysis := texture;
     ImageAnalyzer.shape_analysis := shapes;
     ImageAnalyzer.severity_score := 3;
     ImageAnalyzer.confidence := 40;
     ImageAnalyzer.findings :=
       ["Possible inflammation or irritation detected"] |}.

(** An image source whose decoding always fails. *)
Definition broken_decoder (data : string) : ImageAnalyzer.result unit :=
  ImageAnalyzer.Raise "cannot identify image file".

(** A decoder that accepts everything, and a colour analysis that fails. *)
Definition any_decoder (data : string) : ImageAnalyzer.result unit :=
  ImageAnalyzer.Ok tt.

Definition broken_colors (image : unit)
  : ImageAnalyzer.result ImageAnalyzer.ColorAnalysis :=
  ImageAnalyzer.Raise "OpenCV error".

(** A waiting queue of three LOW entries. *)
Definition low_queue : list TriageLogic.Patient :=
  [ {| TriageLogic.priority := LOW; TriageLogic.arrival_time := 10 |};
    {| TriageLogic.priority := LOW; TriageLogic.arrival_time := 20 |};
    {| TriageLogic.priority := LOW; TriageLogic.arrival_time := 30 |} ].

(** A waiting queue with three tiers, and the same tiers in another order
    with other arrival times. *)
Definition mixed_queue : list TriageLogic.Patient :=
  [ {| TriageLogic.priority := CRITICAL; TriageLogic.arrival_time := 10 |};
    {| TriageLogic.priority := URGENT; TriageLogic.arrival_time := 20 |};
    {| TriageLogic.priority := LOW; TriageLogic.arrival_time := 30 |} ].

Definition mixed_queue_later : list TriageLogic.Patient :=
  [ {| TriageLogic.priority := URGENT; TriageLogic.arrival_time := 55 |};
    {| TriageLogic.priority := LOW; TriageLogic.arrival_time := 60 |};
    {| TriageLogic.priority := CRITICAL; TriageLogic.arrival_time := 65 |} ].

(** The report of a successful analysis of the features above. *)
Definition report : ImageAnalyzer.Report :=
  {| ImageAnalyzer.image_type := "skin";
     ImageAnalyzer.analysis_results := results;
     ImageAnalyzer.recommendations :=
       ImageAnalyzer._generate_image_recommendations results;
     ImageAnalyzer.confidence_score := 40;
     ImageAnalyzer.requires_professional_review := false |}.

(** Features that reach severity 6 with no finding: every value lies
    between the threshold of its severity rule and that of its finding. *)
Definition quiet_colors : ImageAnalyzer.ColorAnalysis :=
  {| ImageAnalyzer.mean_hue := 90;
     ImageAnalyzer.mean_saturation := 60;
     ImageAnalyzer.mean_brightness := 130;
     ImageAnalyzer.red_percentage := 12;
     ImageAnalyzer.color_uniformity := 55 |}.

Definition quiet_texture : ImageAnalyzer.TextureAnalysis :=
  {| ImageAnalyzer.texture_variance := 1200;
     ImageAnalyzer.edge_density := 35;
     ImageAnalyzer.smoothness := 65 |}.

Definition quiet_shapes : ImageAnalyzer.ShapeAnalysis :=
  {| ImageAnalyzer.contour_count := 7;
     ImageAnalyzer.largest_area := 400;
     ImageAnalyzer.circularity := 5 # 10;
     ImageAnalyzer.irregularity_score := 5 # 10 |}.

Definition quiet_report : ImageAnalyzer.Report :=
  let a := {| ImageAnalyzer.color_analysis := quiet_colors;
              ImageAnalyzer.texture_analysis := quiet_texture;
              ImageAnalyzer.shape_analysis := quiet_shapes;
              ImageAnalyzer.severity_score := 6;
              ImageAnalyzer.confidence := 60;
              ImageAnalyzer.findings :=
                ["No significant abnormalities detected in basic analysis"] |}
  in
  {| ImageAnalyzer.image_type := "general";
     ImageAnalyzer.analysis_results := a;
     ImageAnalyzer.recommendations :=
       ImageAnalyzer._generate_image_recommendations a;
     ImageAnalyzer.confidence_score := 60;
     ImageAnalyzer.requires_professional_review := false |}.

End Examples.

(** * Properties *)

Local Open Scope Q_scope.

(** ** Comparisons and rounding *)

Lemma Qgt_bool_true (a b : Q) : Py.Qgt_bool a b = true <-> b < a.
Proof.
  unfold Py.Qgt_bool. rewrite negb_true_iff.
  split; intro H.
  - apply Qnot_le_lt. intro Hle. apply Qle_bool_iff in Hle. congruence.
  - destruct (Qle_bool a b) eqn:E; [|reflexivity].
    apply Qle_bool_iff in E. exfalso. exact (Qlt_not_le _ _ H E).
Qed.

Lemma Qgt_bool_false (a b : Q) : Py.Qgt_bool a b = false <-> a <= b.
Proof.
  unfold Py.Qgt_bool. rewrite negb_false_iff. apply Qle_bool_iff.
Qed.

Lemma Qle_bool_false (a b : Q) : Qle_bool a b = false <-> b < a.
Proof.
  rewrite <- Qgt_bool_true. unfold Py.Qgt_bool.
  destruct (Qle_bool a b); simpl; intuition congruence.
Qed.

(** ** Priority tiers (C1) *)

(** C1.  The priority tier is the step function of the thresholds 8, 6 and
    4 on every severity score: exactly one of the four cases below holds,
    and the symptom analyzer's [_calculate_priority] and the triage logic's
    [_get_priority_level] return the same tier. *)
Theorem priority_is_threshold_step_function (s : Q) :
  SymptomAnalyzer._calculate_priority s = TriageLogic._get_priority_level s
  /\ (   (8 <= s /\ SymptomAnalyzer._calculate_priority s = CRITICAL)
      \/ (6 <= s /\ s < 8 /\ SymptomAnalyzer._calculate_priority s = URGENT)
      \/ (4 <= s /\ s < 6 /\ SymptomAnalyzer._calculate_priority s = MODERATE)
      \/ (s < 4 /\ SymptomAnalyzer._calculate_priority s = LOW)).
Proof.
  split; [reflexivity|].
  unfold SymptomAnalyzer._calculate_priority.
  destruct (Qle_bool 8 s) eqn:H8.
  { left. split; [apply Qle_bool_iff; exact H8 | reflexivity]. }
  apply Qle_bool_false in H8.
  destruct (Qle_bool 6 s) eqn:H6.
  { right; left. repeat split; [apply Qle_bool_iff; exact H6 | exact H8]. }
  apply Qle_bool_false in H6.
  destruct (Qle_bool 4 s) eqn:H4.
  { right; right; left.
    repeat split; [apply Qle_bool_iff; exact H4 | exact H6]. }
  apply Qle_bool_false in H4.
  right; right; right. split; [exact H4 | reflexivity].
Qed.

(** ** Severity of a symptom text (C2, C6, C9) *)

Section ScanLemmas.

Variable text : string.

Let hit (e : string * Z) : bool := Py.str_in (fst e) text.

Lemma sum_scores_app (l1 l2 : list (string * Z)) :
  Spec.sum_scores (l1 ++ l2) = (Spec.sum_scores l1 + Spec.sum_scores l2)%Z.
Proof.
  induction l1 as [|e l1 IH]; simpl; [reflexivity|].
  rewrite IH. lia.
Qed.

Lemma scan_keywords_entries (data : SymptomAnalyzer.SeverityData)
      (st : Z * Z) :
  SymptomAnalyzer.scan_keywords text data st
  = ((fst st + Spec.sum_scores (filter hit (Spec.entries_of data)))%Z,
     (snd st + Z.of_nat (List.length (filter hit (Spec.entries_of data))))%Z).
Proof.
  unfold SymptomAnalyzer.scan_keywords, Spec.entries_of.
  generalize (SymptomAnalyzer.keywords data) as kws.
  intro kws. revert st.
  induction kws as [|k kws IH]; intros [total matches].
  - simpl. f_equal; lia.
  - simpl fold_left. simpl map. simpl filter.
    replace (hit (k, SymptomAnalyzer.score data))
      with (Py.str_in k text) by reflexivity.
    destruct (Py.str_in k text); rewrite IH; simpl; f_equal; lia.
Qed.

Lemma scan_table (tbl : list (string * SymptomAnalyzer.SeverityData))
      (st : Z * Z) :
  let entries := flat_map (fun item => Spec.entries_of (snd item)) tbl in
  fold_left (fun st item => SymptomAnalyzer.scan_keywords text (snd item) st)
            tbl st
  = ((fst st + Spec.sum_scores (filter hit entries))%Z,
     (snd st + Z.of_nat (List.length (filter hit entries)))%Z).
Proof.
  revert st. induction tbl as [|item tbl IH]; intros [total matches].
  - simpl. f_equal; lia.
  - simpl. simpl in IH. rewrite scan_keywords_entries, IH.
    rewrite filter_app, sum_scores_app, length_app. simpl.
    f_equal; lia.
Qed.

Lemma scan_severity_matched :
  SymptomAnalyzer.scan_severity text
  = (Spec.sum_scores (Spec.matched text),
     Z.of_nat (List.length (Spec.matched text))).
Proof.
  unfold SymptomAnalyzer.scan_severity. rewrite scan_table. reflexivity.
Qed.

End ScanLemmas.

Lemma keyword_scores_NoDup : NoDup Spec.all_keywords.
Proof.
  assert (H : nodup string_dec Spec.all_keywords = Spec.all_keywords)
    by (vm_compute; reflexivity).
  rewrite <- H. apply NoDup_nodup.
Qed.

Lemma NoDup_map_fst_filter {A B : Type} (f : A * B -> bool)
      (l : list (A * B)) :
  NoDup (map fst l) -> NoDup (map fst (filter f l)).
Proof.
  induction l as [|e l IH]; simpl; intro H; [constructor|].
  inversion H as [|x xs Hnotin Hrest]; subst.
  destruct (f e); [|auto].
  simpl. constructor; [|auto].
  intro Hin. apply Hnotin.
  apply in_map_iff in Hin. destruct Hin as [e' [He' Hin]].
  apply filter_In in Hin. destruct Hin as [Hin _].
  apply in_map_iff. exists e'. split; assumption.
Qed.

Lemma keyword_scores_bounded :
  Forall (fun e : string * Z => (2 <= snd e <= 10)%Z) Spec.keyword_scores.
Proof.
  vm_compute. repeat (constructor; [split; discriminate|]). constructor.
Qed.

Lemma sum_scores_bounded (l : list (string * Z)) :
  Forall (fun e : string * Z => (2 <= snd e <= 10)%Z) l ->
  (2 * Z.of_nat (List.length l) <= Spec.sum_scores l
   <= 10 * Z.of_nat (List.length l))%Z.
Proof.
  induction 1 as [|e l He _ IH]; simpl Spec.sum_scores; simpl List.length.
  - lia.
  - lia.
Qed.

Lemma matched_bounded (text : string) :
  (2 * Z.of_nat (List.length (Spec.matched text))
   <= Spec.sum_scores (Spec.matched text)
   <= 10 * Z.of_nat (List.length (Spec.matched text)))%Z.
Proof.
  apply sum_scores_bounded. unfold Spec.matched.
  apply Forall_forall. intros e He. apply filter_In in He.
  destruct He as [He _].
  exact (proj1 (Forall_forall _ _) keyword_scores_bounded e He).
Qed.

(** The value of [_calculate_severity_lightweight] in terms of the matched
    keywords. *)
Lemma severity_unfold (text : string) :
  SymptomAnalyzer._calculate_severity_lightweight text
  = if (Z.of_nat (List.length (Spec.matched text)) =? 0)%Z then 3
    else Qmin (inject_Z (Spec.sum_scores (Spec.matched text))
               / inject_Z (Z.of_nat (List.length (Spec.matched text)))) 10.
Proof.
  unfold SymptomAnalyzer._calculate_severity_lightweight.
  rewrite scan_severity_matched. reflexivity.
Qed.

Lemma average_bounds (total matches : Z) :
  (0 < matches)%Z -> (2 * matches <= total <= 10 * matches)%Z ->
  2 <= inject_Z total / inject_Z matches <= 10.
Proof.
  intros Hpos [Hlo Hhi].
  assert (Hm : 0 < inject_Z matches)
    by (change 0 with (inject_Z 0); rewrite <- Zlt_Qlt; exact Hpos).
  split.
  - apply Qle_shift_div_l; [exact Hm|].
    change 2 with (inject_Z 2). rewrite <- inject_Z_mult, <- Zle_Qle. exact Hlo.
  - apply Qle_shift_div_r; [exact Hm|].
    change 10 with (inject_Z 10). rewrite <- inject_Z_mult, <- Zle_Qle.
    exact Hhi.
Qed.

Lemma severity_lightweight_bounds (text : string) :
  2 <= SymptomAnalyzer._calculate_severity_lightweight text <= 10.
Proof.
  rewrite severity_unfold.
  destruct (Z.of_nat (List.length (Spec.matched text)) =? 0)%Z eqn:E.
  - split; discriminate.
  - apply Z.eqb_neq in E.
    destruct (average_bounds (Spec.sum_scores (Spec.matched text))
                (Z.of_nat (List.length (Spec.matched text)))) as [Hlo Hhi];
      [lia | apply matched_bounded |].
    split.
    + apply Q.min_glb; [exact Hlo | discriminate].
    + apply Q.le_min_r.
Qed.

(** C2 (as amended).  The score sum and the match count grow once for every
    keyword of the four lists that occurs in the text as a substring,
    however often it occurs there: the result is 3 when no keyword occurs
    and otherwise the average score of the keywords that occur, capped at
    10.  No keyword is counted twice. *)
Theorem severity_is_average_over_matched_keywords (text : string) :
  NoDup (map fst (Spec.matched text))
  /\ SymptomAnalyzer._calculate_severity_lightweight text
     == match Spec.matched text with
        | [] => 3
        | _ :: _ =>
            Qmin (inject_Z (Spec.sum_scores (Spec.matched text))
                  / inject_Z (Z.of_nat (List.length (Spec.matched text))))
                 10
        end.
Proof.
  split.
  - apply NoDup_map_fst_filter. exact keyword_scores_NoDup.
  - rewrite severity_unfold.
    destruct (Spec.matched text) as [|e l]; reflexivity.
Qed.

(** C2, counterexample.  On the text "fever fever chest pain" the code
    counts "fever" once and returns (4 + 10) / 2 = 7, where counting every
    occurrence gives (4 + 4 + 10) / 3 = 6. *)
Lemma severity_counts_a_repeated_keyword_once :
  SymptomAnalyzer._calculate_severity_lightweight "fever fever chest pain" == 7
  /\ Spec.severity_per_occurrence "fever fever chest pain" == 6
  /\ ~ SymptomAnalyzer._calculate_severity_lightweight "fever fever chest pain"
       == Spec.severity_per_occurrence "fever fever chest pain".
Proof.
  split; [vm_compute; reflexivity|].
  split; [vm_compute; reflexivity|].
  vm_compute. discriminate.
Qed.

(** ** Rounding keeps integer bounds *)

Lemma round_half_even_between (a b : Z) (x : Q) :
  inject_Z a <= x -> x <= inject_Z b ->
  (a <= Py.round_half_even x <= b)%Z.
Proof.
  intros Ha Hb.
  assert (Hfa : (a <= Qfloor x)%Z).
  { rewrite <- (Qfloor_Z a). apply Qfloor_resp_le. exact Ha. }
  assert (Hfb : (Qfloor x <= b)%Z).
  { rewrite <- (Qfloor_Z b). apply Qfloor_resp_le. exact Hb. }
  assert (Hstep : 0 < x - inject_Z (Qfloor x) -> (Qfloor x + 1 <= b)%Z).
  { intro Hpos.
    destruct (Z.eq_dec (Qfloor x) b) as [Heq|Hne]; [|lia].
    exfalso. rewrite Heq in Hpos.
    apply (Qlt_not_le _ _ Hpos).
    apply (Qplus_le_l _ _ (inject_Z b)). ring_simplify. exact Hb. }
  unfold Py.round_half_even.
  destruct (Qcompare (x - inject_Z (Qfloor x)) (1 # 2)) eqn:C.
  - destruct (Z.even (Qfloor x)); [lia|].
    apply Qeq_alt in C.
    assert (Hpos : 0 < x - inject_Z (Qfloor x)) by (rewrite C; reflexivity).
    specialize (Hstep Hpos). lia.
  - lia.
  - apply Qgt_alt in C.
    assert (Hpos : 0 < x - inject_Z (Qfloor x)).
    { apply Qlt_trans with (1 # 2); [reflexivity | exact C]. }
    specialize (Hstep Hpos). lia.
Qed.

Lemma round_half_even_inject_Z (k : Z) (x : Q) :
  x == inject_Z k -> Py.round_half_even x = k.
Proof.
  intro H.
  assert (Hb : (k <= Py.round_half_even x <= k)%Z).
  { apply round_half_even_between; rewrite H; apply Qle_refl. }
  lia.
Qed.

Lemma round_2_bounds (x : Q) : 0 <= x -> x <= 10 -> 0 <= Py.round x 2 <= 10.
Proof.
  intros H0 H10. unfold Py.round.
  change (inject_Z (10 ^ Z.of_nat 2)) with (inject_Z 100).
  destruct (round_half_even_between 0 1000 (x * inject_Z 100)) as [Hlo Hhi].
  - change (inject_Z 0) with (0 * inject_Z 100).
    apply Qmult_le_compat_r; [exact H0 | discriminate].
  - change (inject_Z 1000) with (10 * inject_Z 100).
    apply Qmult_le_compat_r; [exact H10 | discriminate].
  - split.
    + apply Qle_shift_div_l; [reflexivity|].
      change (0 * inject_Z 100) with (inject_Z 0).
      rewrite <- Zle_Qle. exact Hlo.
    + apply Qle_shift_div_r; [reflexivity|].
      change (10 * inject_Z 100) with (inject_Z 1000).
      rewrite <- Zle_Qle. exact Hhi.
Qed.

(** ** Rounding is monotone *)

Lemma round_half_even_cases (x : Q) :
  Py.round_half_even x = Qfloor x
  /\ x - inject_Z (Qfloor x) <= 1 # 2
  /\ (x - inject_Z (Qfloor x) == 1 # 2 -> Z.even (Qfloor x) = true)
  \/ Py.round_half_even x = (Qfloor x + 1)%Z
     /\ 1 # 2 <= x - inject_Z (Qfloor x)
     /\ (x - inject_Z (Qfloor x) == 1 # 2 -> Z.even (Qfloor x) = false).
Proof.
  unfold Py.round_half_even.
  destruct (Qcompare (x - inject_Z (Qfloor x)) (1 # 2)) eqn:C.
  - apply Qeq_alt in C.
    destruct (Z.even (Qfloor x)) eqn:E.
    + left. split; [reflexivity|]. split; [rewrite C; apply Qle_refl | auto].
    + right. split; [reflexivity|]. split; [rewrite C; apply Qle_refl | auto].
  - apply Qlt_alt in C. left. split; [reflexivity|].
    split; [apply Qlt_le_weak; exact C|].
    intro H. rewrite H in C. discriminate.
  - apply Qgt_alt in C. right. split; [reflexivity|].
    split; [apply Qlt_le_weak; exact C|].
    intro H. rewrite H in C. discriminate.
Qed.

Lemma round_half_even_monotone (x y : Q) :
  x <= y -> (Py.round_half_even x <= Py.round_half_even y)%Z.
Proof.
  intro Hxy.
  assert (Hf : (Qfloor x <= Qfloor y)%Z) by (apply Qfloor_resp_le; exact Hxy).
  assert (Hy : (Qfloor y <= Py.round_half_even y)%Z)
    by (destruct (round_half_even_cases y) as [[-> _]|[-> _]]; lia).
  destruct (round_half_even_cases x) as [[-> _]|[-> [Hx Ex]]]; [lia|].
  destruct (Z.eq_dec (Qfloor x) (Qfloor y)) as [E|NE]; [|lia].
  destruct (round_half_even_cases y) as [[_ [Hy' Ey]]|[-> _]]; [|lia].
  exfalso. rewrite <- E in Hy', Ey.
  assert (Hx1 : x - inject_Z (Qfloor x) == 1 # 2) by lra.
  assert (Hy1 : y - inject_Z (Qfloor x) == 1 # 2) by lra.
  specialize (Ex Hx1). specialize (Ey Hy1). congruence.
Qed.

Lemma round_half_even_lower (a : Z) (x : Q) :
  inject_Z a <= x -> (a <= Py.round_half_even x)%Z.
Proof.
  intro H. apply round_half_even_monotone in H.
  rewrite (round_half_even_inject_Z a (inject_Z a)) in H;
    [exact H | reflexivity].
Qed.

Lemma round_half_even_upper (b : Z) (x : Q) :
  x <= inject_Z b -> (Py.round_half_even x <= b)%Z.
Proof.
  intro H. apply round_half_even_monotone in H.
  rewrite (round_half_even_inject_Z b (inject_Z b)) in H;
    [exact H | reflexivity].
Qed.


(** ** Image severity and confidence (C5, C7) *)

(** C5.  The image severity is the sum of the six bonuses (+3 red
    percentage above 20, +2 hue standard deviation above 50, +2 texture
    variance above 1000, +1 edge density above 30, +2 irregularity above
    0.7, +1 more than 5 contours), capped at 10. *)
Theorem image_severity_is_capped_sum_of_bonuses
        (c : ImageAnalyzer.ColorAnalysis) (t : ImageAnalyzer.TextureAnalysis)
        (s : ImageAnalyzer.ShapeAnalysis) :
  ImageAnalyzer._calculate_image_severity c t s
  = Z.min
      (Spec.additive_rule
         (ImageAnalyzer.red_percentage c) (ImageAnalyzer.color_uniformity c)
         (ImageAnalyzer.texture_variance t) (ImageAnalyzer.edge_density t)
         (ImageAnalyzer.irregularity_score s) (ImageAnalyzer.contour_count s))
      10.
Proof.
  unfold ImageAnalyzer._calculate_image_severity, Spec.additive_rule,
    Spec.bonus.
  destruct (Py.Qgt_bool (ImageAnalyzer.red_percentage c) 20),
    (Py.Qgt_bool (ImageAnalyzer.color_uniformity c) 50),
    (Py.Qgt_bool (ImageAnalyzer.texture_variance t) 1000),
    (Py.Qgt_bool (ImageAnalyzer.edge_density t) 30),
    (Py.Qgt_bool (ImageAnalyzer.irregularity_score s) (7 # 10)),
    (5 <? ImageAnalyzer.contour_count s)%Z; reflexivity.
Qed.

Lemma image_severity_bounds
      (c : ImageAnalyzer.ColorAnalysis) (t : ImageAnalyzer.TextureAnalysis)
      (s : ImageAnalyzer.ShapeAnalysis) :
  (0 <= ImageAnalyzer._calculate_image_severity c t s <= 10)%Z.
Proof.
  unfold ImageAnalyzer._calculate_image_severity.
  destruct (Py.Qgt_bool (ImageAnalyzer.red_percentage c) 20),
    (Py.Qgt_bool (ImageAnalyzer.color_uniformity c) 50),
    (Py.Qgt_bool (ImageAnalyzer.texture_variance t) 1000),
    (Py.Qgt_bool (ImageAnalyzer.edge_density t) 30),
    (Py.Qgt_bool (ImageAnalyzer.irregularity_score s) (7 # 10)),
    (5 <? ImageAnalyzer.contour_count s)%Z; simpl; lia.
Qed.

Lemma confidence_of_clamp (severity : Z) :
  ImageAnalyzer.confidence_of severity = Spec.clamp (severity * 10) 40 85.
Proof.
  unfold ImageAnalyzer.confidence_of, Spec.clamp.
  destruct (Z.ltb_spec (severity * 10) 40), (Z.ltb_spec 85 (severity * 10));
    lia.
Qed.

Lemma features_confidence {Image : Type}
      (resize : Image -> ImageAnalyzer.result Image)
      (colors : Image -> ImageAnalyzer.result ImageAnalyzer.ColorAnalysis)
      (texture : Image -> ImageAnalyzer.result ImageAnalyzer.TextureAnalysis)
      (shapes : Image -> ImageAnalyzer.result ImageAnalyzer.ShapeAnalysis)
      (image : Image) (image_type : string)
      (r : ImageAnalyzer.AnalysisResults) :
  ImageAnalyzer._analyze_image_features Image resize colors texture shapes
    image image_type = ImageAnalyzer.Ok r ->
  ImageAnalyzer.confidence r
  = ImageAnalyzer.confidence_of (ImageAnalyzer.severity_score r)
  /\ ImageAnalyzer.severity_score r
     = ImageAnalyzer._calculate_image_severity
         (ImageAnalyzer.color_analysis r) (ImageAnalyzer.texture_analysis r)
         (ImageAnalyzer.shape_analysis r).
Proof.
  unfold ImageAnalyzer._analyze_image_features, ImageAnalyzer.bind.
  destruct (resize image) as [image'|e]; [|discriminate].
  destruct (colors image') as [c|e]; [|discriminate].
  destruct (texture image') as [t|e]; [|discriminate].
  destruct (shapes image') as [s|e]; [|discriminate].
  intro H. injection H as <-. split; reflexivity.
Qed.

(** C7.  The confidence that [_analyze_image_features] reports is
    clamp(severity * 10, 40, 85).  For features with red percentage 25, hue
    standard deviation 10, texture variance 500, edge density 10,
    irregularity 0.2 and 2 contours, only the red-percentage rule fires: the
    severity is 3 and the confidence is 40, the floor of the clamp. *)
Theorem image_confidence_is_clamped_severity :
  (forall severity : Z,
      ImageAnalyzer.confidence_of severity = Spec.clamp (severity * 10) 40 85)
  /\ (forall (Image : Type) resize colors texture shapes
             (image : Image) (image_type : string) r,
         ImageAnalyzer._analyze_image_features Image resize colors texture
           shapes image image_type = ImageAnalyzer.Ok r ->
         ImageAnalyzer.confidence r
         = Spec.clamp (ImageAnalyzer.severity_score r * 10) 40 85)
  /\ (forall c t s,
         ImageAnalyzer.red_percentage c == 25 ->
         ImageAnalyzer.color_uniformity c == 10 ->
         ImageAnalyzer.texture_variance t == 500 ->
         ImageAnalyzer.edge_density t == 10 ->
         ImageAnalyzer.irregularity_score s == 2 # 10 ->
         ImageAnalyzer.contour_count s = 2%Z ->
         ImageAnalyzer._calculate_image_severity c t s = 3%Z
         /\ ImageAnalyzer.confidence_of
              (ImageAnalyzer._calculate_image_severity c t s) = 40%Z
         /\ Spec.clamp 30 40 85 = 40%Z).
Proof.
  split; [exact confidence_of_clamp|].
  split.
  - intros Image resize colors texture shapes image image_type r H.
    destruct (features_confidence _ _ _ _ _ _ _ H) as [Hc _].
    rewrite Hc. apply confidence_of_clamp.
  - intros c t s Hred Hhue Hvar Hedge Hirr Hcount.
    assert (Hsev : ImageAnalyzer._calculate_image_severity c t s = 3%Z).
    { unfold ImageAnalyzer._calculate_image_severity.
      assert (E1 : Py.Qgt_bool (ImageAnalyzer.red_percentage c) 20 = true)
        by (apply Qgt_bool_true; rewrite Hred; reflexivity).
      assert (E2 : Py.Qgt_bool (ImageAnalyzer.color_uniformity c) 50 = false)
        by (apply Qgt_bool_false; rewrite Hhue; discriminate).
      assert (E3 : Py.Qgt_bool (ImageAnalyzer.texture_variance t) 1000 = false)
        by (apply Qgt_bool_false; rewrite Hvar; discriminate).
      assert (E4 : Py.Qgt_bool (ImageAnalyzer.edge_density t) 30 = false)
        by (apply Qgt_bool_false; rewrite Hedge; discriminate).
      assert (E5 : Py.Qgt_bool (ImageAnalyzer.irregularity_score s) (7 # 10)
                   = false)
        by (apply Qgt_bool_false; rewrite Hirr; discriminate).
      rewrite E1, E2, E3, E4, E5, Hcount. reflexivity. }
    rewrite Hsev. repeat split.
Qed.

Lemma image_confidence_example :
  ImageAnalyzer._analyze_image_features unit
    (fun i => ImageAnalyzer.Ok i)
    (fun _ => ImageAnalyzer.Ok Examples.colors)
    (fun _ => ImageAnalyzer.Ok Examples.texture)
    (fun _ => ImageAnalyzer.Ok Examples.shapes)
    tt "skin" = ImageAnalyzer.Ok Examples.results
  /\ ImageAnalyzer.confidence Examples.results
     = Spec.clamp (ImageAnalyzer.severity_score Examples.results * 10) 40 85
  /\ ImageAnalyzer._calculate_image_severity
       Examples.colors Examples.texture Examples.shapes = 3%Z
  /\ ImageAnalyzer.confidence_of
       (ImageAnalyzer._calculate_image_severity
          Examples.colors Examples.texture Examples.shapes) = 40%Z
  /\ Spec.clamp 30 40 85 = 40%Z.
Proof.
  destruct image_confidence_is_clamped_severity as [_ [Hfeat Hex]].
  split; [reflexivity|].
  split.
  - apply (Hfeat unit (fun i => ImageAnalyzer.Ok i)
             (fun _ => ImageAnalyzer.Ok Examples.colors)
             (fun _ => ImageAnalyzer.Ok Examples.texture)
             (fun _ => ImageAnalyzer.Ok Examples.shapes) tt "skin").
    reflexivity.
  - apply (Hex Examples.colors Examples.texture Examples.shapes);
      reflexivity.
Defined.

(** ** Failures of the image analysis (C8) *)

(** Closes a goal [Raise e1 = Raise e2] from a hypothesis that equates the
    same two exceptions at another result type. *)
Ltac same_raise :=
  try discriminate;
  match goal with
  | H : ImageAnalyzer.Raise _ = ImageAnalyzer.Raise _ |- _ =>
      injection H as ->; reflexivity
  end.

Section ImageFailure.

Variables ImageData Image : Type.
Variable to_cv_image : ImageData -> ImageAnalyzer.result Image.
Variable resize : Image -> ImageAnalyzer.result Image.
Variable colors : Image -> ImageAnalyzer.result ImageAnalyzer.ColorAnalysis.
Variable texture : Image -> ImageAnalyzer.result ImageAnalyzer.TextureAnalysis.
Variable shapes : Image -> ImageAnalyzer.result ImageAnalyzer.ShapeAnalysis.

Local Abbreviation features :=
  (ImageAnalyzer._analyze_image_features Image resize colors texture shapes).
Local Abbreviation try_analyze :=
  (ImageAnalyzer.try_analyze ImageData Image to_cv_image resize colors
     texture shapes).
Local Abbreviation analyze_image :=
  (ImageAnalyzer.analyze_image ImageData Image to_cv_image resize colors
     texture shapes).

(** The [try] block raises exactly when the decoding raises or the
    feature analysis of the decoded image does. *)
Lemma try_analyze_raises (data : ImageData) (ty e : string) :
  try_analyze data ty = ImageAnalyzer.Raise e
  <-> (to_cv_image data = ImageAnalyzer.Raise e
       \/ exists image, to_cv_image data = ImageAnalyzer.Ok image
                        /\ features image ty = ImageAnalyzer.Raise e).
Proof.
  unfold ImageAnalyzer.try_analyze, ImageAnalyzer.bind.
  destruct (to_cv_image data) as [image|e0].
  - split.
    + intro H. right. exists image. split; [reflexivity|].
      destruct (features image ty) as [r|e1]; same_raise.
    + intros [H|[image' [H1 H2]]]; [discriminate|].
      injection H1 as <-. rewrite H2. reflexivity.
  - split.
    + intro H. left. same_raise.
    + intros [H|[image' [H1 _]]]; same_raise.
Qed.

(** The feature analysis raises when any of its four stages does. *)
Lemma features_raise (image : Image) (ty e : string) :
  features image ty = ImageAnalyzer.Raise e
  <-> (resize image = ImageAnalyzer.Raise e
       \/ exists image',
           resize image = ImageAnalyzer.Ok image'
           /\ (colors image' = ImageAnalyzer.Raise e
               \/ (exists c, colors image' = ImageAnalyzer.Ok c)
                  /\ (texture image' = ImageAnalyzer.Raise e
                      \/ (exists t, texture image' = ImageAnalyzer.Ok t)
                         /\ shapes image' = ImageAnalyzer.Raise e))).
Proof.
  unfold ImageAnalyzer._analyze_image_features, ImageAnalyzer.bind.
  destruct (resize image) as [image'|e0].
  - split.
    + intro H. right. exists image'. split; [reflexivity|].
      destruct (colors image') as [c|e1]; [right | left; same_raise].
      split; [eexists; reflexivity|].
      destruct (texture image') as [t|e2]; [right | left; same_raise].
      split; [eexists; reflexivity|].
      destruct (shapes image') as [s|e3]; same_raise.
    + intros [H|[i [H1 H]]]; [discriminate|].
      injection H1 as <-.
      destruct H as [H|[[c Hc] H]]; [rewrite H; reflexivity|].
      rewrite Hc.
      destruct H as [H|[[t Ht] H]]; [rewrite H; reflexivity|].
      rewrite Ht, H. reflexivity.
  - split.
    + intro H. left. same_raise.
    + intros [H|[i [H1 _]]]; same_raise.
Qed.

(** C8.  Whenever the decoding of the image or the processing of the
    decoded image raises, [analyze_image] returns the error mapping: it
    has an error field and no analysis results, its
    requires_professional_review flag is True and its recommendations
    are the one generic recommendation.  The exception is turned into
    the returned value. *)
Theorem image_failure_returns_cautious_error
        (data : ImageData) (ty e : string) :
  (to_cv_image data = ImageAnalyzer.Raise e
   \/ exists image, to_cv_image data = ImageAnalyzer.Ok image
                    /\ features image ty = ImageAnalyzer.Raise e) ->
  analyze_image data ty
  = ImageAnalyzer.Failed
      {| ImageAnalyzer.error := "Image analysis failed: " ++ e;
         ImageAnalyzer.error_recommendations :=
           ["Please consult healthcare professional for proper evaluation"];
         ImageAnalyzer.error_confidence_score := 0;
         ImageAnalyzer.error_requires_professional_review := true |}
  /\ ImageAnalyzer.get_error (analyze_image data ty)
     = Some ("Image analysis failed: " ++ e)
  /\ ImageAnalyzer.get_analysis_results (analyze_image data ty) = None
  /\ ImageAnalyzer.get_requires_professional_review (analyze_image data ty)
     = true
  /\ ImageAnalyzer.get_recommendations (analyze_image data ty)
     = ["Please consult healthcare professional for proper evaluation"].
Proof.
  intro H. apply try_analyze_raises in H.
  unfold ImageAnalyzer.analyze_image. rewrite H. repeat split.
Qed.

(** Every call returns one of the two mappings, and the error mapping
    only when the [try] block raised. *)
Lemma analyze_image_total (data : ImageData) (ty : string) :
  (exists report, try_analyze data ty = ImageAnalyzer.Ok report
                  /\ analyze_image data ty = ImageAnalyzer.Analysed report)
  \/ (exists e, try_analyze data ty = ImageAnalyzer.Raise e
                /\ ImageAnalyzer.get_error (analyze_image data ty)
                   = Some ("Image analysis failed: " ++ e)).
Proof.
  unfold ImageAnalyzer.analyze_image.
  destruct (try_analyze data ty) as [r|e].
  - left. exists r. split; reflexivity.
  - right. exists e. split; reflexivity.
Qed.

End ImageFailure.

Lemma image_failure_example :
  ImageAnalyzer.get_requires_professional_review
    (ImageAnalyzer.analyze_image string unit Examples.broken_decoder
       (fun i => ImageAnalyzer.Ok i)
       (fun _ => ImageAnalyzer.Ok Examples.colors)
       (fun _ => ImageAnalyzer.Ok Examples.texture)
       (fun _ => ImageAnalyzer.Ok Examples.shapes) "not an image" "skin")
  = true
  /\ ImageAnalyzer.get_error
       (ImageAnalyzer.analyze_image string unit Examples.any_decoder
          (fun i => ImageAnalyzer.Ok i) Examples.broken_colors
          (fun _ => ImageAnalyzer.Ok Examples.texture)
          (fun _ => ImageAnalyzer.Ok Examples.shapes) "image" "wound")
     = Some "Image analysis failed: OpenCV error".
Proof.
  split.
  - refine (proj1 (proj2 (proj2 (proj2
             (image_failure_returns_cautious_error string unit
                Examples.broken_decoder (fun i => ImageAnalyzer.Ok i)
                (fun _ => ImageAnalyzer.Ok Examples.colors)
                (fun _ => ImageAnalyzer.Ok Examples.texture)
                (fun _ => ImageAnalyzer.Ok Examples.shapes)
                "not an image" "skin" "cannot identify image file" _))))).
    left. reflexivity.
  - refine (proj1 (proj2
             (image_failure_returns_cautious_error string unit
                Examples.any_decoder (fun i => ImageAnalyzer.Ok i)
                Examples.broken_colors
                (fun _ => ImageAnalyzer.Ok Examples.texture)
                (fun _ => ImageAnalyzer.Ok Examples.shapes)
                "image" "wound" "OpenCV error" _))).
    right. exists tt. split; reflexivity.
Defined.

(** ** Queue position (C3) *)

Lemma count_loop {A : Type} (test : A -> bool) (l : list A) (init : Z) :
  fold_left (fun (position : Z) (x : A) =>
               if test x then (position + 1)%Z else position) l init
  = (init + Z.of_nat (List.length (filter test l)))%Z.
Proof.
  revert init. induction l as [|x l IH]; intro init; simpl.
  - lia.
  - rewrite IH. destruct (test x); simpl List.length; lia.
Qed.

Lemma heavier_none_over_critical (queue : list TriageLogic.Patient) :
  Spec.heavier (TriageLogic.priority_weights CRITICAL) queue = 0%nat.
Proof.
  unfold Spec.heavier.
  induction queue as [|p queue IH]; [reflexivity|].
  simpl filter. destruct (TriageLogic.priority p); simpl; exact IH.
Qed.

(** C3.  The queue position is one plus the number of queue entries whose
    priority weight (CRITICAL 1.0, URGENT 0.8, MODERATE 0.5, LOW 0.2) is
    strictly greater than the weight of the tier of the new entry, and the
    tier is returned with it.  A CRITICAL entry (severity 8 or more) that
    joins a queue of LOW entries gets position 1. *)
Theorem queue_position_counts_heavier_entries :
  (forall (severity_score : Q) (arrival : Z)
          (current_queue : list TriageLogic.Patient),
      let tier := TriageLogic._get_priority_level severity_score in
      TriageLogic.calculate_queue_position severity_score arrival current_queue
      = ((1 + Z.of_nat
                (Spec.heavier (TriageLogic.priority_weights tier)
                              current_queue))%Z,
         tier))
  /\ (TriageLogic.priority_weights CRITICAL == 1
      /\ TriageLogic.priority_weights URGENT == 0.8
      /\ TriageLogic.priority_weights MODERATE == 0.5
      /\ TriageLogic.priority_weights LOW == 0.2)
  /\ (forall (severity_score : Q) (arrival : Z)
             (current_queue : list TriageLogic.Patient),
         8 <= severity_score ->
         Forall (fun p => TriageLogic.priority p = LOW) current_queue ->
         TriageLogic.calculate_queue_position severity_score arrival
           current_queue = (1%Z, CRITICAL)).
Proof.
  assert (Hpos : forall severity_score arrival current_queue,
             TriageLogic.calculate_queue_position severity_score arrival
               current_queue
             = ((1 + Z.of_nat
                       (Spec.heavier
                          (TriageLogic.priority_weights
                             (TriageLogic._get_priority_level severity_score))
                          current_queue))%Z,
                TriageLogic._get_priority_level severity_score)).
  { intros severity_score arrival current_queue.
    unfold TriageLogic.calculate_queue_position, Spec.heavier.
    rewrite count_loop. reflexivity. }
  split; [exact Hpos|].
  split; [repeat split|].
  intros severity_score arrival current_queue H8 _.
  rewrite Hpos.
  assert (E : TriageLogic._get_priority_level severity_score = CRITICAL).
  { unfold TriageLogic._get_priority_level.
    apply Qle_bool_iff in H8. rewrite H8. reflexivity. }
  rewrite E, heavier_none_over_critical. reflexivity.
Qed.

Lemma queue_position_example :
  8 <= 9
  /\ Forall (fun p => TriageLogic.priority p = LOW) Examples.low_queue
  /\ TriageLogic.calculate_queue_position 9 40 Examples.low_queue
     = (1%Z, CRITICAL).
Proof.
  assert (H8 : 8 <= 9) by discriminate.
  assert (Hlow : Forall (fun p => TriageLogic.priority p = LOW)
                        Examples.low_queue)
    by (repeat constructor).
  split; [exact H8|]. split; [exact Hlow|].
  exact (proj2 (proj2 queue_position_counts_heavier_entries)
           9 40%Z Examples.low_queue H8 Hlow).
Defined.

(** ** Wait estimate (C4) *)


(** The doubles that [1 - priority_factor] evaluates to: 0.0,
    0.19999999999999996, 0.5 and 0.8 (the double of 0.8, a little above
    four fifths). *)
Lemma float_factor_values :
  TriageLogic.float_factor CRITICAL == 0
  /\ TriageLogic.float_factor URGENT == 900719925474099 # 4503599627370496
  /\ TriageLogic.float_factor MODERATE == 1 # 2
  /\ TriageLogic.float_factor LOW == 3602879701896397 # 4503599627370496.
Proof. repeat split; vm_compute; reflexivity. Qed.

Lemma float_factor_nonneg (p : Priority) : 0 <= TriageLogic.float_factor p.
Proof.
  destruct float_factor_values as [HC [HU [HM HL]]].
  destruct p; [rewrite HC | rewrite HU | rewrite HM | rewrite HL]; discriminate.
Qed.





(** [_format_wait_time] shows the whole minutes of a duration. *)
Lemma format_as_minutes (w : Z) :
  TriageLogic._format_wait_time w = Spec.render_minutes (w / 60000000).
Proof.
  unfold TriageLogic._format_wait_time, Spec.render_minutes,
    TriageLogic.minutes, TriageLogic.hours. cbv zeta.
  change (1 * 60000000)%Z with 60000000%Z.
  change (1 * 3600000000)%Z with 3600000000%Z.
  assert (A : (w <? 60000000)%Z = (w / 60000000 <? 1)%Z).
  { destruct (Z.ltb_spec w 60000000), (Z.ltb_spec (w / 60000000) 1);
      try reflexivity; exfalso;
      pose proof (Z.div_mod w 60000000);
      pose proof (Z.mod_pos_bound w 60000000); lia. }
  assert (B : (w <? 3600000000)%Z = (w / 60000000 <? 60)%Z).
  { destruct (Z.ltb_spec w 3600000000), (Z.ltb_spec (w / 60000000) 60);
      try reflexivity; exfalso;
      pose proof (Z.div_mod w 60000000);
      pose proof (Z.mod_pos_bound w 60000000); lia. }
  assert (C : (w / 3600000000 = w / 60000000 / 60)%Z).
  { rewrite Z.div_div by lia. reflexivity. }
  assert (D : ((w mod 3600000000) / 60000000 = (w / 60000000) mod 60)%Z).
  { change 3600000000%Z with (60000000 * 60)%Z.
    rewrite Z.rem_mul_r by lia.
    rewrite Z.mul_comm, Z.div_add by lia.
    rewrite Z.div_small by (apply Z.mod_pos_bound; lia). reflexivity. }
  rewrite A, B, C, D. reflexivity.
Qed.










(** ** Severity bounds (C9) *)

(** C9.  The severity score of the symptom analyzer, before and after the
    rounding in [analyze_symptoms], and the severity score of the image
    analyzer lie between 0 and 10. *)
Theorem severity_scores_between_0_and_10 :
  (forall text : string,
      0 <= SymptomAnalyzer._calculate_severity_lightweight text <= 10)
  /\ (forall (o : SymptomAnalyzer.SetOrder) (text : string),
         0 <= SymptomAnalyzer.severity_score
                (SymptomAnalyzer.analyze_symptoms o text) <= 10)
  /\ (forall c t s,
         (0 <= ImageAnalyzer._calculate_image_severity c t s <= 10)%Z).
Proof.
  assert (H : forall text : string,
             0 <= SymptomAnalyzer._calculate_severity_lightweight text <= 10).
  { intro text. destruct (severity_lightweight_bounds text) as [Hlo Hhi].
    split; [|exact Hhi].
    apply Qle_trans with 2; [discriminate | exact Hlo]. }
  split; [exact H|].
  split; [|exact image_severity_bounds].
  intros o text. unfold SymptomAnalyzer.analyze_symptoms.
  simpl SymptomAnalyzer.severity_score.
  destruct (H (SymptomAnalyzer._clean_text text)) as [Hlo Hhi].
  apply round_2_bounds; assumption.
Qed.

(** ** Texts without a keyword (C6) *)

Lemma matched_nil (text : string) :
  Forall (fun k => Py.str_in k text = false) Spec.all_keywords ->
  Spec.matched text = [].
Proof.
  unfold Spec.all_keywords, Spec.matched.
  induction Spec.keyword_scores as [|e l IH]; simpl; intro H; [reflexivity|].
  inversion H as [|x xs Hx Hxs]; subst.
  rewrite Hx. apply IH. exact Hxs.
Qed.

Lemma severity_default (text : string) :
  Forall (fun k => Py.str_in k text = false) Spec.all_keywords ->
  SymptomAnalyzer._calculate_severity_lightweight text = 3.
Proof.
  intro H. rewrite severity_unfold, (matched_nil text H). reflexivity.
Qed.

Lemma empty_text_has_no_keyword :
  Forall (fun k => Py.str_in k "" = false) Spec.all_keywords.
Proof.
  vm_compute. repeat (constructor; [reflexivity|]). constructor.
Qed.

(** C6.  A text whose normalized form contains no severity keyword has
    the severity score 3.0 (also after the rounding to two places), and on
    an ASCII text, where the model of [_clean_text] is the code's,
    [analyze_symptoms] returns that score.  The empty text is such a
    text: its severity score is 3.0 and its confidence is 0.0.
    [analyze_symptoms] is a total function: it returns the mapping on every
    text. *)
Theorem text_without_keyword_has_default_severity :
  (forall cleaned : string,
      Forall (fun k => Py.str_in k cleaned = false) Spec.all_keywords ->
      SymptomAnalyzer._calculate_severity_lightweight cleaned = 3
      /\ Py.round (SymptomAnalyzer._calculate_severity_lightweight cleaned) 2
         == 3)
  /\ (forall (o : SymptomAnalyzer.SetOrder) (text : string),
         Py.is_ascii text = true ->
         Forall (fun k => Py.str_in k (SymptomAnalyzer._clean_text text)
                          = false)
                Spec.all_keywords ->
         SymptomAnalyzer.severity_score
           (SymptomAnalyzer.analyze_symptoms o text) == 3)
  /\ (forall o : SymptomAnalyzer.SetOrder,
         SymptomAnalyzer._clean_text "" = ""
         /\ SymptomAnalyzer.severity_score
              (SymptomAnalyzer.analyze_symptoms o "") == 3
         /\ SymptomAnalyzer.confidence_score
              (SymptomAnalyzer.analyze_symptoms o "") == 0).
Proof.
  assert (Hcleaned : forall cleaned : string,
             Forall (fun k => Py.str_in k cleaned = false) Spec.all_keywords ->
             SymptomAnalyzer._calculate_severity_lightweight cleaned = 3
             /\ Py.round
                  (SymptomAnalyzer._calculate_severity_lightweight cleaned) 2
                == 3).
  { intros cleaned H. rewrite (severity_default _ H).
    split; [reflexivity | vm_compute; reflexivity]. }
  assert (Hdefault : forall o text,
             Forall (fun k => Py.str_in k (SymptomAnalyzer._clean_text text)
                              = false) Spec.all_keywords ->
             SymptomAnalyzer.severity_score
               (SymptomAnalyzer.analyze_symptoms o text) == 3).
  { intros o text H. unfold SymptomAnalyzer.analyze_symptoms.
    simpl SymptomAnalyzer.severity_score.
    exact (proj2 (Hcleaned _ H)). }
  split; [exact Hcleaned|].
  split; [intros o text _ H; exact (Hdefault o text H)|].
  intro o. split; [reflexivity|]. split.
  - apply Hdefault. exact empty_text_has_no_keyword.
  - unfold SymptomAnalyzer.analyze_symptoms.
    simpl SymptomAnalyzer.confidence_score. vm_compute. reflexivity.
Qed.

Lemma text_without_keyword_example :
  Py.is_ascii "I feel odd!" = true
  /\ Forall (fun k => Py.str_in k (SymptomAnalyzer._clean_text "I feel odd!")
                      = false) Spec.all_keywords
  /\ SymptomAnalyzer._calculate_severity_lightweight
       (SymptomAnalyzer._clean_text "I feel odd!") = 3
  /\ SymptomAnalyzer.severity_score
       (SymptomAnalyzer.analyze_symptoms SymptomAnalyzer.insertion_order
          "I feel odd!") == 3.
Proof.
  assert (Ha : Py.is_ascii "I feel odd!" = true) by reflexivity.
  assert (H : Forall (fun k => Py.str_in k
                                 (SymptomAnalyzer._clean_text "I feel odd!")
                               = false) Spec.all_keywords)
    by (vm_compute; repeat (constructor; [reflexivity|]); constructor).
  destruct text_without_keyword_has_default_severity as [A [B _]].
  split; [exact Ha|]. split; [exact H|].
  split; [exact (proj1 (A _ H))|].
  exact (B SymptomAnalyzer.insertion_order "I feel odd!" Ha H).
Defined.

(** ** Key symptoms (C10) *)

Lemma append_loop (text : string) (kws found : list string) :
  fold_left
    (fun (found : list string) (keyword : string) =>
       if Py.str_in keyword text then (found ++ [keyword])%list else found)
    kws found
  = (found ++ filter (fun k => Py.str_in k text) kws)%list.
Proof.
  revert found. induction kws as [|k kws IH]; intro found; simpl.
  - rewrite app_nil_r. reflexivity.
  - rewrite IH. destruct (Py.str_in k text); [|reflexivity].
    rewrite <- app_assoc. reflexivity.
Qed.

Lemma append_table (text : string)
      (tbl : list (string * SymptomAnalyzer.SeverityData))
      (found : list string) :
  fold_left
    (fun (found : list string) (item : string * SymptomAnalyzer.SeverityData) =>
       fold_left
         (fun (found : list string) (keyword : string) =>
            if Py.str_in keyword text then (found ++ [keyword])%list
            else found)
         (SymptomAnalyzer.keywords (snd item)) found)
    tbl found
  = (found
     ++ filter (fun k => Py.str_in k text)
          (flat_map (fun item => SymptomAnalyzer.keywords (snd item)) tbl))%list.
Proof.
  revert found. induction tbl as [|item tbl IH]; intro found; simpl.
  - rewrite app_nil_r. reflexivity.
  - rewrite append_loop, IH, filter_app, app_assoc. reflexivity.
Qed.

(** [found_symptoms] lists the keywords that occur in the text, in table
    order. *)
Lemma found_symptoms_filter (text : string) :
  SymptomAnalyzer.found_symptoms text
  = filter (fun k => Py.str_in k text) Spec.all_keywords.
Proof.
  unfold SymptomAnalyzer.found_symptoms. rewrite append_table. reflexivity.
Qed.

Lemma NoDup_firstn {A : Type} (n : nat) (l : list A) :
  NoDup l -> NoDup (firstn n l).
Proof.
  intro H. rewrite <- (firstn_skipn n l) in H.
  exact (NoDup_app_remove_r _ _ H).
Qed.

Lemma In_firstn {A : Type} (n : nat) (l : list A) (x : A) :
  In x (firstn n l) -> In x l.
Proof.
  intro H. rewrite <- (firstn_skipn n l). apply in_or_app. left. exact H.
Qed.

(** C10.  The key symptoms extracted from a normalized text are at most
    five, they are pairwise different, and each of them is a severity
    keyword that occurs in that text.  On an ASCII text, where the model
    of [_clean_text] is the code's, these are the key symptoms that
    [analyze_symptoms] returns, with respect to the normalized text. *)
Theorem key_symptoms_are_at_most_five_distinct_keywords :
  (forall (o : SymptomAnalyzer.SetOrder) (cleaned : string),
      let key := SymptomAnalyzer._extract_key_symptoms o cleaned in
      (List.length key <= 5)%nat
      /\ NoDup key
      /\ Forall (fun k => In k Spec.all_keywords
                          /\ Py.str_in k cleaned = true) key)
  /\ (forall (o : SymptomAnalyzer.SetOrder) (text : string),
         Py.is_ascii text = true ->
         let key := SymptomAnalyzer.key_symptoms
                      (SymptomAnalyzer.analyze_symptoms o text) in
         (List.length key <= 5)%nat
         /\ NoDup key
         /\ Forall (fun k => In k Spec.all_keywords
                             /\ Py.str_in k (SymptomAnalyzer._clean_text text)
                                = true)
                   key).
Proof.
  assert (H : forall (o : SymptomAnalyzer.SetOrder) (cleaned : string),
             let key := SymptomAnalyzer._extract_key_symptoms o cleaned in
             (List.length key <= 5)%nat
             /\ NoDup key
             /\ Forall (fun k => In k Spec.all_keywords
                                 /\ Py.str_in k cleaned = true) key).
  { intros o cleaned. cbv zeta.
    unfold SymptomAnalyzer._extract_key_symptoms.
    split; [apply firstn_le_length|].
    split; [apply NoDup_firstn, SymptomAnalyzer.list_of_set_NoDup|].
    apply Forall_forall. intros k Hk.
    apply In_firstn, SymptomAnalyzer.list_of_set_In in Hk.
    rewrite found_symptoms_filter in Hk.
    apply filter_In in Hk. exact Hk. }
  split; [exact H|].
  intros o text _. exact (H o (SymptomAnalyzer._clean_text text)).
Qed.

Lemma key_symptoms_example :
  Py.is_ascii "Fever, cough and a RUNNY nose." = true
  /\ SymptomAnalyzer.key_symptoms
       (SymptomAnalyzer.analyze_symptoms SymptomAnalyzer.insertion_order
          "Fever, cough and a RUNNY nose.")
     = ["fever"; "cough"; "runny nose"]
  /\ NoDup
       (SymptomAnalyzer.key_symptoms
          (SymptomAnalyzer.analyze_symptoms SymptomAnalyzer.insertion_order
             "Fever, cough and a RUNNY nose.")).
Proof.
  assert (Ha : Py.is_ascii "Fever, cough and a RUNNY nose." = true)
    by reflexivity.
  split; [exact Ha|]. split; [vm_compute; reflexivity|].
  exact (proj1 (proj2
           (proj2 key_symptoms_are_at_most_five_distinct_keywords
              SymptomAnalyzer.insertion_order
              "Fever, cough and a RUNNY nose." Ha))).
Defined.

(** ** The model on concrete inputs *)

Example clean_text_example :
  SymptomAnalyzer._clean_text "  Sudden CHEST-pain,  and   fever!! "
  = "sudden chest pain and fever ".
Proof. reflexivity. Qed.

Example chest_pain_alone_is_critical :
  SymptomAnalyzer.severity_score
    (SymptomAnalyzer.analyze_symptoms SymptomAnalyzer.insertion_order
       "chest pain") == 10
  /\ SymptomAnalyzer.priority_level
       (SymptomAnalyzer.analyze_symptoms SymptomAnalyzer.insertion_order
          "chest pain") = CRITICAL.
Proof. split; vm_compute; reflexivity. Qed.

Example overlapping_keywords_all_count :
  SymptomAnalyzer._calculate_severity_lightweight "high fever" == 11 # 2.
Proof. vm_compute. reflexivity. Qed.

Example key_symptoms_are_cut_to_five :
  SymptomAnalyzer.key_symptoms
    (SymptomAnalyzer.analyze_symptoms SymptomAnalyzer.insertion_order
       "stroke, nausea, cough, fatigue, dizziness, bruise and a sore throat")
  = ["stroke"; "nausea"; "dizziness"; "fatigue"; "cough"].
Proof. vm_compute. reflexivity. Qed.


Example wait_estimates :
  TriageLogic.estimate_wait_time 1 URGENT TriageLogic.default_processing_time
  = TriageLogic.Returns "3 minutes"
  /\ TriageLogic.estimate_wait_time 7 LOW TriageLogic.default_processing_time
     = TriageLogic.Returns "1 hours 24 minutes"
  /\ TriageLogic.estimate_wait_time 100 LOW TriageLogic.default_processing_time
     = TriageLogic.Returns "4 hours"
  /\ TriageLogic.estimate_wait_time 100 CRITICAL
       TriageLogic.default_processing_time
     = TriageLogic.Returns "Immediate".
Proof. repeat split; vm_compute; reflexivity. Qed.

(** * Further properties of the code *)

(** ** The tier grows with the severity score *)

Lemma priority_weights_monotone (s1 s2 : Q) :
  s1 <= s2 ->
  TriageLogic.priority_weights (TriageLogic._get_priority_level s1)
  <= TriageLogic.priority_weights (TriageLogic._get_priority_level s2).
Proof.
  intro H. unfold TriageLogic._get_priority_level.
  destruct (Qle_bool 8 s1) eqn:A1; [apply Qle_bool_iff in A1
                                   | apply Qle_bool_false in A1];
  destruct (Qle_bool 6 s1) eqn:B1; [apply Qle_bool_iff in B1
                                   | apply Qle_bool_false in B1
                                   | apply Qle_bool_iff in B1
                                   | apply Qle_bool_false in B1];
  destruct (Qle_bool 4 s1) eqn:C1;
  try apply Qle_bool_iff in C1; try apply Qle_bool_false in C1;
  destruct (Qle_bool 8 s2) eqn:A2;
  try apply Qle_bool_iff in A2; try apply Qle_bool_false in A2;
  destruct (Qle_bool 6 s2) eqn:B2;
  try apply Qle_bool_iff in B2; try apply Qle_bool_false in B2;
  destruct (Qle_bool 4 s2) eqn:C2;
  try apply Qle_bool_iff in C2; try apply Qle_bool_false in C2;
  simpl TriageLogic.priority_weights; try lra.
Qed.

(** ** Queue position: bounds, order, independence *)

Lemma heavier_antitone (w1 w2 : Q) (queue : list TriageLogic.Patient) :
  w1 <= w2 -> (Spec.heavier w2 queue <= Spec.heavier w1 queue)%nat.
Proof.
  intro H. unfold Spec.heavier.
  induction queue as [|p queue IH]; simpl; [lia|].
  destruct (Py.Qgt_bool
              (TriageLogic.priority_weights (TriageLogic.priority p)) w2)
           eqn:E2.
  - apply Qgt_bool_true in E2.
    assert (E1 : Py.Qgt_bool
                   (TriageLogic.priority_weights (TriageLogic.priority p)) w1
                 = true)
      by (apply Qgt_bool_true; lra).
    rewrite E1. simpl. lia.
  - destruct (Py.Qgt_bool
                (TriageLogic.priority_weights (TriageLogic.priority p)) w1);
      simpl; lia.
Qed.

Lemma queue_position_value (s : Q) (arrival : Z)
      (queue : list TriageLogic.Patient) :
  fst (TriageLogic.calculate_queue_position s arrival queue)
  = (1 + Z.of_nat
           (Spec.heavier
              (TriageLogic.priority_weights (TriageLogic._get_priority_level s))
              queue))%Z.
Proof.
  unfold TriageLogic.calculate_queue_position, Spec.heavier.
  rewrite count_loop. reflexivity.
Qed.

(** X1.  The queue position is at least 1 and at most one more than the
    length of the queue. *)
Theorem queue_position_within_queue (s : Q) (arrival : Z)
        (queue : list TriageLogic.Patient) :
  (1 <= fst (TriageLogic.calculate_queue_position s arrival queue)
   <= 1 + Z.of_nat (List.length queue))%Z.
Proof.
  rewrite queue_position_value. unfold Spec.heavier.
  pose proof (filter_length_le
                (fun p : TriageLogic.Patient =>
                   Py.Qgt_bool
                     (TriageLogic.priority_weights (TriageLogic.priority p))
                     (TriageLogic.priority_weights
                        (TriageLogic._get_priority_level s)))
                queue) as H.
  lia.
Qed.

(** X2.  A higher severity score never gives a later queue position, and
    never a lighter priority weight. *)
Theorem higher_severity_is_not_served_later (s1 s2 : Q) (a1 a2 : Z)
        (queue : list TriageLogic.Patient) :
  s1 <= s2 ->
  (fst (TriageLogic.calculate_queue_position s2 a2 queue)
   <= fst (TriageLogic.calculate_queue_position s1 a1 queue))%Z
  /\ TriageLogic.priority_weights
       (snd (TriageLogic.calculate_queue_position s1 a1 queue))
     <= TriageLogic.priority_weights
          (snd (TriageLogic.calculate_queue_position s2 a2 queue)).
Proof.
  intro H. split.
  - rewrite !queue_position_value.
    pose proof (heavier_antitone _ _ queue (priority_weights_monotone _ _ H)).
    lia.
  - apply priority_weights_monotone. exact H.
Qed.

Lemma higher_severity_example :
  5 <= 13 # 2
  /\ (fst (TriageLogic.calculate_queue_position (13 # 2) 7 Examples.mixed_queue)
      <= fst (TriageLogic.calculate_queue_position 5 3 Examples.mixed_queue))%Z.
Proof.
  assert (H : 5 <= 13 # 2) by discriminate.
  split; [exact H|].
  exact (proj1 (higher_severity_is_not_served_later
                  5 (13 # 2) 3 7 Examples.mixed_queue H)).
Defined.

Lemma heavier_permutation (w : Q) (q1 q2 : list TriageLogic.Patient) :
  Permutation (map TriageLogic.priority q1) (map TriageLogic.priority q2) ->
  Spec.heavier w q1 = Spec.heavier w q2.
Proof.
  intro H.
  assert (E : forall q,
             Spec.heavier w q
             = List.length
                 (filter (fun t => Py.Qgt_bool (TriageLogic.priority_weights t) w)
                         (map TriageLogic.priority q))).
  { intro q. unfold Spec.heavier.
    induction q as [|p q IH]; simpl; [reflexivity|].
    destruct (Py.Qgt_bool _ w); simpl; rewrite IH; reflexivity. }
  rewrite !E.
  induction H as [|t l l' _ IH|t t' l|l l' l'' _ IH1 _ IH2]; simpl.
  - reflexivity.
  - destruct (Py.Qgt_bool _ w); simpl; rewrite IH; reflexivity.
  - destruct (Py.Qgt_bool (TriageLogic.priority_weights t) w),
      (Py.Qgt_bool (TriageLogic.priority_weights t') w); reflexivity.
  - congruence.
Qed.

(** X3.  The queue position depends on the tiers in the queue only: the
    order of the entries, their arrival times and the arrival time of the
    new entry do not change it. *)
Theorem queue_position_ignores_order_and_arrival (s : Q) (a1 a2 : Z)
        (q1 q2 : list TriageLogic.Patient) :
  Permutation (map TriageLogic.priority q1) (map TriageLogic.priority q2) ->
  TriageLogic.calculate_queue_position s a1 q1
  = TriageLogic.calculate_queue_position s a2 q2.
Proof.
  intro H.
  rewrite (surjective_pairing (TriageLogic.calculate_queue_position s a1 q1)),
    (surjective_pairing (TriageLogic.calculate_queue_position s a2 q2)).
  rewrite !queue_position_value, (heavier_permutation _ q1 q2 H).
  reflexivity.
Qed.

Lemma queue_order_example :
  Permutation (map TriageLogic.priority Examples.mixed_queue)
              (map TriageLogic.priority Examples.mixed_queue_later)
  /\ TriageLogic.calculate_queue_position 5 3 Examples.mixed_queue
     = TriageLogic.calculate_queue_position 5 99 Examples.mixed_queue_later.
Proof.
  assert (H : Permutation (map TriageLogic.priority Examples.mixed_queue)
                (map TriageLogic.priority Examples.mixed_queue_later)).
  { simpl. apply perm_trans with [URGENT; CRITICAL; LOW].
    - apply perm_swap.
    - apply perm_skip. apply perm_swap. }
  split; [exact H|].
  exact (queue_position_ignores_order_and_arrival
           5 3 99 Examples.mixed_queue Examples.mixed_queue_later H).
Defined.


(** ** Wait estimate: CRITICAL, growth with the position, display *)

(** X4.  For a CRITICAL entry the factor [1 - priority_factor] is 0:
    [estimate_wait_time] answers "Immediate" at every queue position and
    for every processing time whose product is a timedelta, and raises
    [OverflowError] when the product is none. *)
Theorem critical_wait_is_immediate (n avg : Z) :
  TriageLogic.final_wait n CRITICAL avg = 0%Z
  /\ TriageLogic.estimate_wait_time n CRITICAL avg
     = if TriageLogic.timedelta_ok (n * avg)
       then TriageLogic.Returns "Immediate"
       else TriageLogic.OverflowError.
Proof.
  assert (H : TriageLogic.final_wait n CRITICAL avg = 0%Z).
  { unfold TriageLogic.final_wait, TriageLogic.timedelta_mul.
    rewrite (round_half_even_inject_Z 0); [reflexivity|].
    rewrite (proj1 float_factor_values). change (inject_Z 0) with 0. ring. }
  split; [exact H|].
  unfold TriageLogic.estimate_wait_time. rewrite H. reflexivity.
Qed.

(** X5.  With a processing time that is not negative, the wait before the
    display formatting never decreases when the queue position grows. *)
Theorem wait_grows_with_queue_position (n1 n2 : Z) (p : Priority) (avg : Z) :
  (0 <= avg)%Z -> (n1 <= n2)%Z ->
  (TriageLogic.final_wait n1 p avg <= TriageLogic.final_wait n2 p avg)%Z.
Proof.
  intros Havg Hn. unfold TriageLogic.final_wait.
  apply Z.min_le_compat_r. unfold TriageLogic.timedelta_mul.
  apply round_half_even_monotone.
  apply Qmult_le_compat_r; [|apply float_factor_nonneg].
  rewrite <- Zle_Qle. nia.
Qed.

Lemma wait_grows_example :
  (0 <= TriageLogic.default_processing_time)%Z /\ (2 <= 5)%Z
  /\ (TriageLogic.final_wait 2 MODERATE TriageLogic.default_processing_time
      <= TriageLogic.final_wait 5 MODERATE TriageLogic.default_processing_time)%Z.
Proof.
  assert (H0 : (0 <= TriageLogic.default_processing_time)%Z) by discriminate.
  assert (Hn : (2 <= 5)%Z) by discriminate.
  split; [exact H0|]. split; [exact Hn|].
  exact (wait_grows_with_queue_position
           2 5 MODERATE TriageLogic.default_processing_time H0 Hn).
Defined.

(** X6.  [_format_wait_time] shows whole minutes: two durations of less
    than 1000 days with the same number of whole minutes (rounded down)
    are displayed alike.  (Below 1000 days the float quotients of the
    code are the integer ones.) *)
Theorem wait_display_truncates_to_minutes (w1 w2 : Z) :
  (w1 < 86400000000000)%Z -> (w2 < 86400000000000)%Z ->
  (w1 / 60000000 = w2 / 60000000)%Z ->
  TriageLogic._format_wait_time w1 = TriageLogic._format_wait_time w2.
Proof.
  intros _ _ H. rewrite !format_as_minutes, H. reflexivity.
Qed.

Lemma wait_display_example :
  (5040000000 < 86400000000000)%Z /\ (5099999999 < 86400000000000)%Z
  /\ (5040000000 / 60000000 = 5099999999 / 60000000)%Z
  /\ TriageLogic._format_wait_time 5040000000
     = TriageLogic._format_wait_time 5099999999.
Proof.
  assert (B1 : (5040000000 < 86400000000000)%Z) by reflexivity.
  assert (B2 : (5099999999 < 86400000000000)%Z) by reflexivity.
  assert (H : (5040000000 / 60000000 = 5099999999 / 60000000)%Z)
    by reflexivity.
  split; [exact B1|]. split; [exact B2|]. split; [exact H|].
  exact (wait_display_truncates_to_minutes 5040000000 5099999999 B1 B2 H).
Defined.

(** ** Resource allocation *)

Lemma dict_get_cons {A : Type} (k key : string) (v : A)
      (d : list (string * A)) :
  Py.dict_get ((k, v) :: d) key
  = if String.eqb k key then Some v else Py.dict_get d key.
Proof. reflexivity. Qed.

(** X7.  The equipment of [calculate_resource_allocation] starts with the
    base equipment of the tier and has one to five items.  A specialty
    without an entry in [specialty_equipment] is no error: the equipment
    is then the base equipment alone. *)
Theorem equipment_extends_base_of_tier (s : Q) (specialty : string) :
  let tier := TriageLogic._get_priority_level s in
  let eq := TriageLogic.equipment
              (TriageLogic.calculate_resource_allocation s specialty) in
  firstn (List.length (TriageLogic.base_equipment tier)) eq
  = TriageLogic.base_equipment tier
  /\ (1 <= List.length eq <= 5)%nat
  /\ (~ In specialty ["Cardiology"; "Neurology"; "Dermatology"; "Orthopedics"]
      -> eq = TriageLogic.base_equipment tier).
Proof.
  cbv zeta. unfold TriageLogic.calculate_resource_allocation.
  simpl TriageLogic.equipment. unfold TriageLogic._get_equipment.
  generalize (TriageLogic._get_priority_level s) as tier. intro tier.
  unfold TriageLogic.specialty_equipment. rewrite !dict_get_cons.
  change (Py.dict_get [] specialty) with (@None (list string)).
  destruct (String.eqb_spec "Cardiology" specialty) as [E1|N1];
    [|destruct (String.eqb_spec "Neurology" specialty) as [E2|N2];
      [|destruct (String.eqb_spec "Dermatology" specialty) as [E3|N3];
        [|destruct (String.eqb_spec "Orthopedics" specialty) as [E4|N4]]]].
  1-4: split; [destruct tier; reflexivity|];
       split; [destruct tier; simpl; lia|];
       intro H; exfalso; apply H; simpl; tauto.
  split; [destruct tier; reflexivity|].
  split; [destruct tier; simpl; lia|]. reflexivity.
Qed.

Lemma equipment_example :
  ~ In "Gastroenterology"
       ["Cardiology"; "Neurology"; "Dermatology"; "Orthopedics"]
  /\ TriageLogic.equipment
       (TriageLogic.calculate_resource_allocation 9 "Gastroenterology")
     = ["Defibrillator"; "Ventilator"; "IV Supplies"].
Proof.
  assert (H : ~ In "Gastroenterology"
                   ["Cardiology"; "Neurology"; "Dermatology"; "Orthopedics"]).
  { simpl. intros [H|[H|[H|[H|H]]]]; try discriminate; exact H. }
  split; [exact H|].
  exact (proj2 (proj2 (equipment_extends_base_of_tier 9 "Gastroenterology"))
           H).
Defined.

(** ** Image analysis: findings, review flag, confidence *)

(** X8.  [_generate_findings] never returns the empty list and never more
    than four findings; "No significant abnormalities ..." is reported
    only as the single finding. *)
Theorem findings_are_never_empty
        (c : ImageAnalyzer.ColorAnalysis) (t : ImageAnalyzer.TextureAnalysis)
        (s : ImageAnalyzer.ShapeAnalysis) :
  let found := ImageAnalyzer._generate_findings c t s in
  (1 <= List.length found <= 4)%nat
  /\ (found = [Spec.no_abnormalities]
      \/ ~ In Spec.no_abnormalities found).
Proof.
  cbv zeta. unfold ImageAnalyzer._generate_findings, Spec.no_abnormalities.
  destruct (Py.Qgt_bool (ImageAnalyzer.red_percentage c) 15),
    (Py.Qgt_bool (ImageAnalyzer.texture_variance t) 1500),
    (Py.Qgt_bool (ImageAnalyzer.irregularity_score s) (6 # 10)),
    (Py.Qgt_bool (ImageAnalyzer.color_uniformity c) 60);
    (split; [simpl; lia|]);
    first [ left; reflexivity
          | right; simpl; intro H;
            repeat (destruct H as [H|H]; [discriminate|]); exact H ].
Qed.

Lemma no_findings_low_severity
      (c : ImageAnalyzer.ColorAnalysis) (t : ImageAnalyzer.TextureAnalysis)
      (s : ImageAnalyzer.ShapeAnalysis) :
  ImageAnalyzer._generate_findings c t s = [Spec.no_abnormalities] ->
  (ImageAnalyzer._calculate_image_severity c t s <= 6)%Z.
Proof.
  unfold ImageAnalyzer._generate_findings, Spec.no_abnormalities.
  destruct (Py.Qgt_bool (ImageAnalyzer.red_percentage c) 15) eqn:R;
    [destruct (Py.Qgt_bool (ImageAnalyzer.texture_variance t) 1500),
       (Py.Qgt_bool (ImageAnalyzer.irregularity_score s) (6 # 10)),
       (Py.Qgt_bool (ImageAnalyzer.color_uniformity c) 60); discriminate|].
  destruct (Py.Qgt_bool (ImageAnalyzer.texture_variance t) 1500);
    [destruct (Py.Qgt_bool (ImageAnalyzer.irregularity_score s) (6 # 10)),
       (Py.Qgt_bool (ImageAnalyzer.color_uniformity c) 60); discriminate|].
  destruct (Py.Qgt_bool (ImageAnalyzer.irregularity_score s) (6 # 10)) eqn:I;
    [destruct (Py.Qgt_bool (ImageAnalyzer.color_uniformity c) 60);
     discriminate|].
  intros _.
  apply Qgt_bool_false in R. apply Qgt_bool_false in I.
  assert (R20 : Py.Qgt_bool (ImageAnalyzer.red_percentage c) 20 = false)
    by (apply Qgt_bool_false; lra).
  assert (I7 : Py.Qgt_bool (ImageAnalyzer.irregularity_score s) (7 # 10)
               = false)
    by (apply Qgt_bool_false; lra).
  unfold ImageAnalyzer._calculate_image_severity. rewrite R20, I7.
  destruct (Py.Qgt_bool (ImageAnalyzer.color_uniformity c) 50),
    (Py.Qgt_bool (ImageAnalyzer.texture_variance t) 1000),
    (Py.Qgt_bool (ImageAnalyzer.edge_density t) 30),
    (5 <? ImageAnalyzer.contour_count s)%Z; simpl; lia.
Qed.

Section ImageSuccess.

Variables ImageData Image : Type.
Variable to_cv_image : ImageData -> ImageAnalyzer.result Image.
Variable resize : Image -> ImageAnalyzer.result Image.
Variable colors : Image -> ImageAnalyzer.result ImageAnalyzer.ColorAnalysis.
Variable texture : Image -> ImageAnalyzer.result ImageAnalyzer.TextureAnalysis.
Variable shapes : Image -> ImageAnalyzer.result ImageAnalyzer.ShapeAnalysis.

Local Abbreviation analyze :=
  (ImageAnalyzer.analyze_image ImageData Image to_cv_image resize colors
     texture shapes).

(** What a successful call returns, entry by entry. *)
Lemma analysed_inv (data : ImageData) (ty : string)
      (r : ImageAnalyzer.Report) :
  analyze data ty = ImageAnalyzer.Analysed r ->
  let a := ImageAnalyzer.analysis_results r in
  ImageAnalyzer.severity_score a
  = ImageAnalyzer._calculate_image_severity
      (ImageAnalyzer.color_analysis a) (ImageAnalyzer.texture_analysis a)
      (ImageAnalyzer.shape_analysis a)
  /\ ImageAnalyzer.findings a
     = ImageAnalyzer._generate_findings
         (ImageAnalyzer.color_analysis a) (ImageAnalyzer.texture_analysis a)
         (ImageAnalyzer.shape_analysis a)
  /\ ImageAnalyzer.confidence_score r
     = ImageAnalyzer.confidence_of (ImageAnalyzer.severity_score a)
  /\ ImageAnalyzer.requires_professional_review r
     = (6 <? ImageAnalyzer.severity_score a)%Z
  /\ ImageAnalyzer.recommendations r
     = ImageAnalyzer._generate_image_recommendations a.
Proof.
  unfold ImageAnalyzer.analyze_image, ImageAnalyzer.try_analyze,
    ImageAnalyzer._analyze_image_features, ImageAnalyzer.bind.
  destruct (to_cv_image data) as [image|e]; [|discriminate].
  destruct (resize image) as [image'|e]; [|discriminate].
  destruct (colors image') as [c|e]; [|discriminate].
  destruct (texture image') as [t|e]; [|discriminate].
  destruct (shapes image') as [s|e]; [|discriminate].
  intro H. injection H as <-. cbv zeta. simpl. repeat split.
Qed.

(** X9.  When a successful analysis reports no significant abnormalities,
    its severity is at most 6 and it does not ask for a professional
    review. *)
Theorem no_findings_means_no_review (data : ImageData) (ty : string)
        (r : ImageAnalyzer.Report) :
  analyze data ty = ImageAnalyzer.Analysed r ->
  ImageAnalyzer.findings (ImageAnalyzer.analysis_results r)
  = [Spec.no_abnormalities] ->
  (ImageAnalyzer.severity_score (ImageAnalyzer.analysis_results r) <= 6)%Z
  /\ ImageAnalyzer.requires_professional_review r = false.
Proof.
  intros H Hf. destruct (analysed_inv _ _ _ H) as [Hs [Hf' [_ [Hr _]]]].
  rewrite Hf' in Hf. apply no_findings_low_severity in Hf.
  rewrite <- Hs in Hf. split; [exact Hf|].
  rewrite Hr. apply Z.ltb_ge. exact Hf.
Qed.

(** X10.  In a successful analysis the professional-review flag is set
    exactly when the severity is 7 or more, which is exactly when the
    recommendations are the immediate-attention ones and exactly when the
    confidence is 70 or more. *)
Theorem review_flag_matches_recommendations (data : ImageData) (ty : string)
        (r : ImageAnalyzer.Report) :
  analyze data ty = ImageAnalyzer.Analysed r ->
  let severity :=
    ImageAnalyzer.severity_score (ImageAnalyzer.analysis_results r) in
  (ImageAnalyzer.requires_professional_review r = true <-> (7 <= severity)%Z)
  /\ (ImageAnalyzer.recommendations r = Spec.immediate_attention
      <-> (7 <= severity)%Z)
  /\ ((70 <= ImageAnalyzer.confidence_score r)%Z <-> (7 <= severity)%Z).
Proof.
  intro H. destruct (analysed_inv _ _ _ H) as [_ [_ [Hc [Hr Hrec]]]].
  cbv zeta. rewrite Hr, Hrec, Hc.
  unfold ImageAnalyzer._generate_image_recommendations,
    ImageAnalyzer.confidence_of.
  generalize (ImageAnalyzer.severity_score (ImageAnalyzer.analysis_results r))
    as severity.
  intro severity. split; [|split].
  - rewrite Z.ltb_lt. lia.
  - destruct (Z.leb_spec 7 severity) as [H7|H7].
    + split; [intros _; exact H7 | intros _; reflexivity].
    + split; [|lia].
      destruct (4 <=? severity)%Z; discriminate.
  - lia.
Qed.

(** X11.  A successful analysis has a confidence between 40 and 85; a
    failed one has confidence 0 and asks for a professional review.  So
    the confidence is 0 exactly on the error mapping. *)
Theorem image_confidence_tells_failure (data : ImageData) (ty : string) :
  match analyze data ty with
  | ImageAnalyzer.Analysed r =>
      (40 <= ImageAnalyzer.confidence_score r <= 85)%Z
  | ImageAnalyzer.Failed e =>
      ImageAnalyzer.error_confidence_score e = 0%Z
      /\ ImageAnalyzer.error_requires_professional_review e = true
  end
  /\ (ImageAnalyzer.get_confidence_score (analyze data ty) = 0%Z
      <-> ImageAnalyzer.get_error (analyze data ty) <> None).
Proof.
  destruct (analyze data ty) as [r|e] eqn:H.
  - destruct (analysed_inv _ _ _ H) as [_ [_ [Hc _]]].
    assert (Hb : (40 <= ImageAnalyzer.confidence_score r <= 85)%Z)
      by (rewrite Hc; unfold ImageAnalyzer.confidence_of; lia).
    split; [exact Hb|]. simpl. split; [lia | congruence].
  - unfold ImageAnalyzer.analyze_image in H.
    destruct (ImageAnalyzer.try_analyze _ _ _ _ _ _ _ data ty);
      [discriminate|].
    injection H as <-. simpl. split; [split; reflexivity|].
    split; [discriminate | reflexivity].
Qed.

End ImageSuccess.

Lemma no_findings_example :
  ImageAnalyzer.analyze_image string unit Examples.any_decoder
    (fun i => ImageAnalyzer.Ok i)
    (fun _ => ImageAnalyzer.Ok Examples.quiet_colors)
    (fun _ => ImageAnalyzer.Ok Examples.quiet_texture)
    (fun _ => ImageAnalyzer.Ok Examples.quiet_shapes) "image" "general"
  = ImageAnalyzer.Analysed Examples.quiet_report
  /\ (ImageAnalyzer.severity_score
        (ImageAnalyzer.analysis_results Examples.quiet_report) <= 6)%Z
  /\ ImageAnalyzer.requires_professional_review Examples.quiet_report = false.
Proof.
  split; [reflexivity|].
  apply (no_findings_means_no_review string unit Examples.any_decoder
           (fun i => ImageAnalyzer.Ok i)
           (fun _ => ImageAnalyzer.Ok Examples.quiet_colors)
           (fun _ => ImageAnalyzer.Ok Examples.quiet_texture)
           (fun _ => ImageAnalyzer.Ok Examples.quiet_shapes)
           "image" "general" Examples.quiet_report); reflexivity.
Defined.

Lemma review_flag_example :
  ImageAnalyzer.analyze_image string unit Examples.any_decoder
    (fun i => ImageAnalyzer.Ok i)
    (fun _ => ImageAnalyzer.Ok Examples.colors)
    (fun _ => ImageAnalyzer.Ok Examples.texture)
    (fun _ => ImageAnalyzer.Ok Examples.shapes) "image" "skin"
  = ImageAnalyzer.Analysed Examples.report
  /\ (ImageAnalyzer.requires_professional_review Examples.report = true
      <-> (7 <= 3)%Z).
Proof.
  split; [reflexivity|].
  refine (proj1 (review_flag_matches_recommendations string unit
                   Examples.any_decoder (fun i => ImageAnalyzer.Ok i)
                   (fun _ => ImageAnalyzer.Ok Examples.colors)
                   (fun _ => ImageAnalyzer.Ok Examples.texture)
                   (fun _ => ImageAnalyzer.Ok Examples.shapes)
                   "image" "skin" Examples.report _)).
  reflexivity.
Defined.

(** ** Keyword matching is substring matching *)

Lemma prefix_iff (sub s : string) :
  prefix sub s = true <-> exists post, s = sub ++ post.
Proof.
  revert s. induction sub as [|c sub IH]; intro s.
  - split; [intros _; exists s; reflexivity|].
    intros _. destruct s; reflexivity.
  - destruct s as [|c' s]; simpl.
    + split; [discriminate | intros [post H]; discriminate].
    + destruct (ascii_dec c c') as [->|N].
      * rewrite IH. split; intros [post H]; exists post.
        -- rewrite H. reflexivity.
        -- injection H as H. exact H.
      * split; [discriminate|]. intros [post H]. injection H as H _.
        congruence.
Qed.

Lemma str_in_iff (sub s : string) :
  Py.str_in sub s = true <-> exists pre post, s = pre ++ sub ++ post.
Proof.
  induction s as [|c s IH].
  - change (Py.str_in sub "") with (if prefix sub "" then true else false).
    destruct (prefix sub "") eqn:P.
    + split; [intros _ | intros _; reflexivity].
      apply prefix_iff in P. destruct P as [post P].
      exists "", post. exact P.
    + split; [discriminate|]. intros [pre [post H]].
      destruct pre as [|c' pre]; [|discriminate].
      assert (P' : prefix sub "" = true)
        by (apply prefix_iff; exists post; exact H).
      congruence.
  - change (Py.str_in sub (String c s))
      with (if prefix sub (String c s) then true else Py.str_in sub s).
    destruct (prefix sub (String c s)) eqn:P.
    + split; [intros _ | intros _; reflexivity].
      apply prefix_iff in P. destruct P as [post P].
      exists "", post. exact P.
    + rewrite IH. split.
      * intros [pre [post H]]. exists (String c pre), post.
        rewrite H. reflexivity.
      * intros [pre [post H]]. destruct pre as [|c' pre].
        -- assert (P' : prefix sub (String c s) = true)
             by (apply prefix_iff; exists post; exact H).
           congruence.
        -- injection H as _ H. exists pre, post. exact H.
Qed.

(** X12.  A keyword is found in a text exactly when it is one of the
    severity keywords and the text is some prefix, then the keyword, then
    some suffix: the match is by substring, also inside a longer word. *)
Theorem found_symptoms_are_substring_matches (text k : string) :
  In k (SymptomAnalyzer.found_symptoms text)
  <-> In k Spec.all_keywords /\ exists pre post, text = pre ++ k ++ post.
Proof.
  rewrite found_symptoms_filter, filter_In, str_in_iff. reflexivity.
Qed.

(** ** The normalized text *)

Lemma lower_char_not_upper (c : ascii) :
  Spec.is_upper (Py.lower_char c) = false.
Proof.
  destruct c as [[] [] [] [] [] [] [] []]; reflexivity.
Qed.

Lemma Forall_lstrip (P : ascii -> Prop) (l : list ascii) :
  Forall P l -> Forall P (Py.lstrip l).
Proof.
  induction 1 as [|c l Hc Hl IH]; simpl; [constructor|].
  destruct (Py.is_space c); [exact IH | constructor; assumption].
Qed.

Lemma Forall_strip (P : ascii -> Prop) (l : list ascii) :
  Forall P l -> Forall P (Py.strip l).
Proof.
  intro H. unfold Py.strip.
  apply Forall_rev, Forall_lstrip, Forall_rev, Forall_lstrip. exact H.
Qed.

Lemma Forall_sub_space_runs (P : ascii -> Prop) (l : list ascii) :
  P " "%char ->
  Forall (fun c => Py.is_space c = false -> P c) l ->
  Forall P (Py.sub_space_runs l).
Proof.
  intros Hsp H. induction H as [|c l Hc Hl IH]; [constructor|].
  simpl. destruct (Py.is_space c) eqn:E.
  - destruct l as [|c' l']; [repeat constructor; exact Hsp|].
    destruct (Py.is_space c'); [exact IH | constructor; assumption].
  - constructor; [apply Hc; reflexivity | exact IH].
Qed.

Lemma sub_space_runs_cons (c : ascii) (l : list ascii) :
  Py.sub_space_runs (c :: l)
  = if Py.is_space c then
      match l with
      | c' :: _ => if Py.is_space c' then Py.sub_space_runs l
                   else " "%char :: Py.sub_space_runs l
      | [] => [" "%char]
      end
    else c :: Py.sub_space_runs l.
Proof. reflexivity. Qed.

Lemma sub_space_runs_head (l : list ascii) :
  Spec.head_is_space (Py.sub_space_runs l) = Spec.head_is_space l.
Proof.
  induction l as [|c l IH]; [reflexivity|].
  rewrite sub_space_runs_cons. destruct (Py.is_space c) eqn:E.
  - destruct l as [|c' l']; [simpl; rewrite E; reflexivity|].
    destruct (Py.is_space c') eqn:E'.
    + rewrite IH. simpl. rewrite E, E'. reflexivity.
    + simpl. rewrite E. reflexivity.
  - simpl. reflexivity.
Qed.

Lemma no_adjacent_cons (c : ascii) (l : list ascii) :
  Spec.no_adjacent_spaces (c :: l)
  = negb (Py.is_space c && Spec.head_is_space l)
    && Spec.no_adjacent_spaces l.
Proof.
  destruct l as [|c' l']; simpl; [|reflexivity].
  rewrite andb_false_r. reflexivity.
Qed.

Lemma sub_space_runs_no_adjacent (l : list ascii) :
  Spec.no_adjacent_spaces (Py.sub_space_runs l) = true.
Proof.
  induction l as [|c l IH]; [reflexivity|].
  rewrite sub_space_runs_cons. destruct (Py.is_space c) eqn:E.
  - destruct l as [|c' l']; [reflexivity|].
    destruct (Py.is_space c') eqn:E'; [exact IH|].
    rewrite no_adjacent_cons, IH, sub_space_runs_head.
    simpl Spec.head_is_space. rewrite E', andb_false_r. reflexivity.
  - rewrite no_adjacent_cons, IH, E. reflexivity.
Qed.

(** X13.  The normalized text consists of word characters and single
    spaces: it has no capital ASCII letter, no character other than a word
    character or the space, and no two spaces in a row. *)
Theorem clean_text_is_lowercase_words_and_single_spaces (text : string) :
  let cleaned := list_ascii_of_string (SymptomAnalyzer._clean_text text) in
  Forall (fun c => Spec.is_upper c = false) cleaned
  /\ Forall (fun c => Py.is_word c = true \/ c = " "%char) cleaned
  /\ Spec.no_adjacent_spaces cleaned = true.
Proof.
  cbv zeta. unfold SymptomAnalyzer._clean_text.
  rewrite list_ascii_of_string_of_list_ascii.
  split; [|split].
  - apply Forall_sub_space_runs; [reflexivity|].
    unfold Py.sub_non_word_space. apply Forall_map.
    apply Forall_impl
      with (P := fun c : ascii => Spec.is_upper c = false).
    + intros c Hc _. destruct (Py.is_word c || Py.is_space c);
        [exact Hc | reflexivity].
    + apply Forall_strip, Forall_map, Forall_forall.
      intros c _. apply lower_char_not_upper.
  - apply Forall_sub_space_runs; [right; reflexivity|].
    unfold Py.sub_non_word_space. apply Forall_map, Forall_forall.
    intros c _. destruct (Py.is_word c) eqn:W; simpl.
    + intros _. left. exact W.
    + destruct (Py.is_space c) eqn:S; [congruence|].
      intros _. right. reflexivity.
  - apply sub_space_runs_no_adjacent.
Qed.

(** ** Confidence and the number of matches *)

Lemma count_table (text : string)
      (tbl : list (string * SymptomAnalyzer.SeverityData)) (init : Z) :
  fold_left
    (fun (n : Z) (item : string * SymptomAnalyzer.SeverityData) =>
       fold_left
         (fun (n : Z) (keyword : string) =>
            if Py.str_in keyword text then (n + 1)%Z else n)
         (SymptomAnalyzer.keywords (snd item)) n)
    tbl init
  = (init
     + Z.of_nat
         (List.length
            (filter (fun k => Py.str_in k text)
               (flat_map (fun item => SymptomAnalyzer.keywords (snd item))
                         tbl))))%Z.
Proof.
  revert init. induction tbl as [|item tbl IH]; intro init; simpl.
  - lia.
  - rewrite count_loop, IH, filter_app, length_app. lia.
Qed.

Lemma symptom_matches_found (text : string) :
  SymptomAnalyzer.symptom_matches text
  = Z.of_nat (List.length (SymptomAnalyzer.found_symptoms text)).
Proof.
  rewrite found_symptoms_filter. unfold SymptomAnalyzer.symptom_matches.
  rewrite count_table. reflexivity.
Qed.

Lemma matched_found (text : string) :
  map fst (Spec.matched text) = SymptomAnalyzer.found_symptoms text.
Proof.
  rewrite found_symptoms_filter. unfold Spec.matched, Spec.all_keywords.
  induction Spec.keyword_scores as [|e l IH]; simpl; [reflexivity|].
  destruct (Py.str_in (fst e) text); simpl; rewrite IH; reflexivity.
Qed.

(** X14.  The confidence of [_calculate_confidence] lies between 0 and 95
    on every text. *)
Theorem confidence_between_0_and_95 (text : string) :
  0 <= SymptomAnalyzer._calculate_confidence text <= 95.
Proof.
  unfold SymptomAnalyzer._calculate_confidence.
  destruct (Z.of_nat (Py.split_len text) =? 0)%Z eqn:E;
    [split; discriminate|].
  apply Z.eqb_neq in E.
  pose proof (Nat2Z.is_nonneg (Py.split_len text)) as Hnn.
  set (w := Z.of_nat (Py.split_len text)) in *. clearbody w.
  assert (Hw : 0 < inject_Z w)
    by (change 0 with (inject_Z 0); rewrite <- Zlt_Qlt; lia).
  set (x := Qmin (inject_Z (SymptomAnalyzer.symptom_matches text)
                  / inject_Z w * 100) 95).
  assert (Hx : 0 <= x <= 95).
  { split; [|apply Q.le_min_r].
    apply Q.min_glb; [|discriminate].
    apply Qmult_le_0_compat; [|discriminate].
    apply Qle_shift_div_l; [exact Hw|].
    rewrite symptom_matches_found.
    change (0 * inject_Z w) with (inject_Z 0). rewrite <- Zle_Qle. lia. }
  unfold Py.round. change (inject_Z (10 ^ Z.of_nat 1)) with (inject_Z 10).
  destruct Hx as [H0 H95].
  assert (Hlo : (0 <= Py.round_half_even (x * inject_Z 10))%Z).
  { apply round_half_even_lower.
    change (inject_Z 0) with (0 * inject_Z 10).
    apply Qmult_le_compat_r; [exact H0 | discriminate]. }
  assert (Hhi : (Py.round_half_even (x * inject_Z 10) <= 950)%Z).
  { apply round_half_even_upper.
    change (inject_Z 950) with (95 * inject_Z 10).
    apply Qmult_le_compat_r; [exact H95 | discriminate]. }
  split.
  - apply Qle_shift_div_l; [reflexivity|].
    change (0 * inject_Z 10) with (inject_Z 0). rewrite <- Zle_Qle. exact Hlo.
  - apply Qle_shift_div_r; [reflexivity|].
    change (95 * inject_Z 10) with (inject_Z 950). rewrite <- Zle_Qle.
    exact Hhi.
Qed.

Lemma found_symptoms_NoDup (text : string) :
  NoDup (SymptomAnalyzer.found_symptoms text).
Proof.
  rewrite found_symptoms_filter. apply NoDup_filter, keyword_scores_NoDup.
Qed.

Lemma list_of_set_length (o : SymptomAnalyzer.SetOrder) (l : list string) :
  NoDup l -> List.length (SymptomAnalyzer.list_of_set o l) = List.length l.
Proof.
  intro H. apply Nat.le_antisymm.
  - apply NoDup_incl_length; [apply SymptomAnalyzer.list_of_set_NoDup|].
    intros x Hx. apply SymptomAnalyzer.list_of_set_In in Hx. exact Hx.
  - apply NoDup_incl_length; [exact H|].
    intros x Hx. apply SymptomAnalyzer.list_of_set_In. exact Hx.
Qed.

(** X15.  The three places that test [keyword in text] agree on every
    normalized text: the number of key symptoms is the number of
    matches, cut at 5, and the match counts of the severity and of the
    confidence are that number; the key symptoms are empty exactly when
    no keyword matches.  On an ASCII text, where the model of
    [_clean_text] is the code's, this is the number of key symptoms that
    [analyze_symptoms] returns. *)
Theorem key_symptoms_count_the_matches :
  (forall (o : SymptomAnalyzer.SetOrder) (cleaned : string),
      let key := SymptomAnalyzer._extract_key_symptoms o cleaned in
      Z.of_nat (List.length key)
      = Z.min 5 (SymptomAnalyzer.symptom_matches cleaned)
      /\ snd (SymptomAnalyzer.scan_severity cleaned)
         = SymptomAnalyzer.symptom_matches cleaned
      /\ (key = [] <-> SymptomAnalyzer.symptom_matches cleaned = 0%Z))
  /\ (forall (o : SymptomAnalyzer.SetOrder) (text : string),
         Py.is_ascii text = true ->
         let cleaned := SymptomAnalyzer._clean_text text in
         let key := SymptomAnalyzer.key_symptoms
                      (SymptomAnalyzer.analyze_symptoms o text) in
         Z.of_nat (List.length key)
         = Z.min 5 (SymptomAnalyzer.symptom_matches cleaned)
         /\ (key = [] <-> SymptomAnalyzer.symptom_matches cleaned = 0%Z)).
Proof.
  assert (H : forall (o : SymptomAnalyzer.SetOrder) (cleaned : string),
             let key := SymptomAnalyzer._extract_key_symptoms o cleaned in
             Z.of_nat (List.length key)
             = Z.min 5 (SymptomAnalyzer.symptom_matches cleaned)
             /\ snd (SymptomAnalyzer.scan_severity cleaned)
                = SymptomAnalyzer.symptom_matches cleaned
             /\ (key = [] <-> SymptomAnalyzer.symptom_matches cleaned = 0%Z)).
  { intros o cleaned. cbv zeta.
    unfold SymptomAnalyzer._extract_key_symptoms.
    assert (Hlen : List.length
                     (firstn 5 (SymptomAnalyzer.list_of_set o
                                  (SymptomAnalyzer.found_symptoms cleaned)))
                   = Nat.min 5 (List.length
                                  (SymptomAnalyzer.found_symptoms cleaned))).
    { rewrite length_firstn, list_of_set_length;
        [reflexivity | apply found_symptoms_NoDup]. }
    rewrite symptom_matches_found.
    split; [rewrite Hlen; lia|].
    split.
    - rewrite scan_severity_matched. simpl snd.
      rewrite <- matched_found, length_map. reflexivity.
    - split.
      + intro E. rewrite E in Hlen.
        change (@List.length string []) with 0%nat in Hlen. lia.
      + intro E. apply length_zero_iff_nil. lia. }
  split; [exact H|].
  intros o text _. cbv zeta.
  destruct (H o (SymptomAnalyzer._clean_text text)) as [H1 [_ H3]].
  split; [exact H1 | exact H3].
Qed.

Lemma key_symptoms_count_example :
  Py.is_ascii "Fever, cough and a RUNNY nose." = true
  /\ Z.of_nat
       (List.length
          (SymptomAnalyzer.key_symptoms
             (SymptomAnalyzer.analyze_symptoms SymptomAnalyzer.insertion_order
                "Fever, cough and a RUNNY nose.")))
     = Z.min 5 (SymptomAnalyzer.symptom_matches
                  (SymptomAnalyzer._clean_text
                     "Fever, cough and a RUNNY nose.")).
Proof.
  assert (Ha : Py.is_ascii "Fever, cough and a RUNNY nose." = true)
    by reflexivity.
  split; [exact Ha|].
  exact (proj1 (proj2 key_symptoms_count_the_matches
                  SymptomAnalyzer.insertion_order
                  "Fever, cough and a RUNNY nose." Ha)).
Defined.

(** ** The recommended specialty *)

Lemma first_maximum (rest : list (string * Z)) (best : string * Z) :
  let chosen :=
    fold_left (fun (best kv : string * Z) =>
                 if (snd best <? snd kv)%Z then kv else best) rest best in
  exists pre post,
    best :: rest = (pre ++ chosen :: post)%list
    /\ Forall (fun kv => (snd kv < snd chosen)%Z) pre
    /\ Forall (fun kv => (snd kv <= snd chosen)%Z) post.
Proof.
  cbv zeta. revert best. induction rest as [|kv rest IH]; intro best.
  - exists [], []. simpl. repeat split; constructor.
  - simpl fold_left. destruct (Z.ltb_spec (snd best) (snd kv)) as [Hlt|Hge].
    + destruct (IH kv) as [pre [post [E [Hpre Hpost]]]].
      exists (best :: pre), post.
      split; [simpl; f_equal; exact E|].
      split; [|exact Hpost]. constructor; [|exact Hpre].
      destruct pre as [|kv' pre'].
      * injection E as E _. rewrite <- E. exact Hlt.
      * injection E as E _. inversion Hpre as [|x xs Hx Hxs]; subst x xs.
        rewrite <- E in Hx. lia.
    + destruct (IH best) as [pre [post [E [Hpre Hpost]]]].
      destruct pre as [|b pre'].
      * injection E as E1 E2. exists [], (kv :: post).
        split; [simpl; f_equal; [exact E1 | f_equal; exact E2]|].
        split; [constructor|]. constructor; [rewrite <- E1; exact Hge|].
        exact Hpost.
      * injection E as E1 E2.
        exists (best :: kv :: pre'), post.
        split; [simpl; f_equal; f_equal; exact E2|].
        split; [|exact Hpost].
        inversion Hpre as [|x xs Hx Hxs]; subst x xs.
        rewrite <- E1 in Hx.
        constructor; [exact Hx|]. constructor; [lia | exact Hxs].
Qed.

Lemma specialty_score_nonneg (text : string) (kws : list string) :
  (0 <= SymptomAnalyzer.specialty_score text kws)%Z.
Proof.
  unfold SymptomAnalyzer.specialty_score. rewrite count_loop. lia.
Qed.

(** X16.  The recommended specialty is "General Practice" when no
    specialty keyword occurs in the text.  Otherwise it is the first
    specialty, in the order of the mapping, whose number of keyword hits
    is the largest: the specialties before it have strictly fewer hits,
    those after it at most as many.  It is always one of the seven
    specialties of the mapping. *)
Theorem specialty_is_first_with_most_hits (text : string) :
  let chosen := SymptomAnalyzer._determine_specialty_lightweight text in
  let scores := SymptomAnalyzer.specialty_scores text in
  In chosen (map fst SymptomAnalyzer.specialty_mapping)
  /\ (Forall (fun kv => snd kv = 0%Z) scores /\ chosen = "General Practice"
      \/ exists pre hits post,
          scores = (pre ++ (chosen, hits) :: post)%list
          /\ (0 < hits)%Z
          /\ Forall (fun kv => (snd kv < hits)%Z) pre
          /\ Forall (fun kv => (snd kv <= hits)%Z) post).
Proof.
  cbv zeta.
  assert (Hnames : map fst (SymptomAnalyzer.specialty_scores text)
                   = map fst SymptomAnalyzer.specialty_mapping).
  { unfold SymptomAnalyzer.specialty_scores. rewrite map_map. reflexivity. }
  assert (Hnn : Forall (fun kv => (0 <= snd kv)%Z)
                       (SymptomAnalyzer.specialty_scores text)).
  { unfold SymptomAnalyzer.specialty_scores. apply Forall_map, Forall_forall.
    intros item _. apply specialty_score_nonneg. }
  unfold SymptomAnalyzer._determine_specialty_lightweight.
  destruct (existsb (fun kv : string * Z => negb (snd kv =? 0)%Z)
              (SymptomAnalyzer.specialty_scores text)) eqn:Ex; simpl negb; cbv iota.
  - apply existsb_exists in Ex. destruct Ex as [kv0 [Hin0 Hnz]].
    apply negb_true_iff, Z.eqb_neq in Hnz.
    unfold SymptomAnalyzer.max_by_value.
    destruct (SymptomAnalyzer.specialty_scores text) as [|first rest] eqn:Es;
      [destruct Hin0|].
    destruct (first_maximum rest first) as [pre [post [E [Hpre Hpost]]]].
    cbv zeta in E, Hpre, Hpost.
    set (chosen := fold_left
                     (fun best kv : string * Z =>
                        if (snd best <? snd kv)%Z then kv else best)
                     rest first) in *.
    clearbody chosen.
    assert (Hin : In chosen (first :: rest))
      by (rewrite E; apply in_or_app; right; left; reflexivity).
    split.
    + rewrite <- Hnames. apply in_map. exact Hin.
    + right. exists pre, (snd chosen), post.
      split; [rewrite E, <- surjective_pairing; reflexivity|].
      split; [|split; assumption].
      rewrite E in Hin0, Hnn.
      assert (H0 : (0 <= snd kv0)%Z)
        by (exact (proj1 (Forall_forall _ _) Hnn kv0 Hin0)).
      apply in_app_or in Hin0. destruct Hin0 as [Hin0|[Hin0|Hin0]].
      * pose proof (proj1 (Forall_forall _ _) Hpre kv0 Hin0) as Hk.
        cbv beta in Hk. lia.
      * subst kv0. lia.
      * pose proof (proj1 (Forall_forall _ _) Hpost kv0 Hin0) as Hk.
        cbv beta in Hk. lia.
  - split.
    + simpl. tauto.
    + left. split; [|reflexivity].
      apply Forall_forall. intros kv Hin.
      destruct (Z.eq_dec (snd kv) 0) as [E0|N0]; [exact E0|].
      exfalso.
      assert (Ht : existsb (fun kv : string * Z => negb (snd kv =? 0)%Z)
                     (SymptomAnalyzer.specialty_scores text) = true).
      { apply existsb_exists. exists kv. split; [exact Hin|].
        apply negb_true_iff, Z.eqb_neq. exact N0. }
      congruence.
Qed.

(** ** Priority, urgency flag and recommendations of one analysis *)

Lemma sum_scores_upper (bound : Z) (l : list (string * Z)) :
  Forall (fun e : string * Z => (snd e <= bound)%Z) l ->
  (Spec.sum_scores l <= bound * Z.of_nat (List.length l))%Z.
Proof.
  induction 1 as [|e l He _ IH]; simpl Spec.sum_scores; simpl List.length;
    lia.
Qed.

Lemma top_score_is_critical :
  Forall (fun e : string * Z =>
            (snd e <= 7)%Z \/ In (fst e) (Spec.class_keywords "critical"))
         Spec.keyword_scores.
Proof.
  vm_compute.
  repeat (constructor; [first [left; discriminate | right; tauto]|]).
  constructor.
Qed.

(** X17.  A text gets the priority CRITICAL from its keywords only when
    one of the keywords of the critical class occurs in it. *)
Theorem critical_priority_needs_critical_keyword (text : string) :
  SymptomAnalyzer._calculate_priority
    (SymptomAnalyzer._calculate_severity_lightweight text) = CRITICAL ->
  exists k, In k (Spec.class_keywords "critical")
            /\ Py.str_in k text = true.
Proof.
  intro Hc.
  destruct (existsb (fun e : string * Z =>
                       if in_dec string_dec (fst e)
                                 (Spec.class_keywords "critical")
                       then true else false)
                    (Spec.matched text)) eqn:Ex.
  - apply existsb_exists in Ex. destruct Ex as [e [Hin He]].
    destruct (in_dec string_dec (fst e) (Spec.class_keywords "critical"))
      as [Hk|]; [|discriminate].
    exists (fst e). split; [exact Hk|].
    apply filter_In in Hin. exact (proj2 Hin).
  - exfalso.
    assert (H7 : Forall (fun e : string * Z => (snd e <= 7)%Z)
                        (Spec.matched text)).
    { apply Forall_forall. intros e Hin.
      assert (Hks : In e Spec.keyword_scores)
        by (apply filter_In in Hin; exact (proj1 Hin)).
      destruct (proj1 (Forall_forall _ _) top_score_is_critical e Hks)
        as [Hle|Hk]; [exact Hle|].
      exfalso.
      assert (Ht : existsb (fun e : string * Z =>
                              if in_dec string_dec (fst e)
                                        (Spec.class_keywords "critical")
                              then true else false)
                           (Spec.matched text) = true).
      { apply existsb_exists. exists e. split; [exact Hin|].
        destruct (in_dec string_dec (fst e)
                         (Spec.class_keywords "critical"));
          [reflexivity | contradiction]. }
      congruence. }
    apply sum_scores_upper in H7.
    unfold SymptomAnalyzer._calculate_priority in Hc.
    destruct (Qle_bool 8 (SymptomAnalyzer._calculate_severity_lightweight text))
      eqn:H8;
      [|destruct (Qle_bool 6 _); [|destruct (Qle_bool 4 _)]; discriminate].
    apply Qle_bool_iff in H8. rewrite severity_unfold in H8.
    destruct (Z.of_nat (List.length (Spec.matched text)) =? 0)%Z eqn:E;
      [lra|].
    apply Z.eqb_neq in E.
    set (m := Z.of_nat (List.length (Spec.matched text))) in *.
    set (t := Spec.sum_scores (Spec.matched text)) in *.
    assert (Hm : (0 < m)%Z) by (unfold m in *; lia).
    clearbody m t.
    assert (Hq : 0 < inject_Z m)
      by (change 0 with (inject_Z 0); rewrite <- Zlt_Qlt; exact Hm).
    assert (Havg : inject_Z t / inject_Z m <= 7).
    { apply Qle_shift_div_r; [exact Hq|].
      change 7 with (inject_Z 7). rewrite <- inject_Z_mult, <- Zle_Qle.
      exact H7. }
    pose proof (Q.le_min_l (inject_Z t / inject_Z m) 10) as Hmin.
    lra.
Qed.

Lemma critical_keyword_example :
  SymptomAnalyzer._calculate_priority
    (SymptomAnalyzer._calculate_severity_lightweight
       "crushing chest pain since noon") = CRITICAL
  /\ exists k, In k (Spec.class_keywords "critical")
               /\ Py.str_in k "crushing chest pain since noon" = true.
Proof.
  assert (H : SymptomAnalyzer._calculate_priority
                (SymptomAnalyzer._calculate_severity_lightweight
                   "crushing chest pain since noon") = CRITICAL)
    by (vm_compute; reflexivity).
  split; [exact H|].
  exact (critical_priority_needs_critical_keyword
           "crushing chest pain since noon" H).
Defined.

(** X18.  In the result of [analyze_symptoms] the urgency flag agrees with
    the priority: it is set for every CRITICAL result and never for a
    MODERATE or LOW one. *)
Theorem urgency_flag_agrees_with_priority
        (o : SymptomAnalyzer.SetOrder) (text : string) :
  let a := SymptomAnalyzer.analyze_symptoms o text in
  match SymptomAnalyzer.priority_level a with
  | CRITICAL => SymptomAnalyzer.urgency_flag a = true
  | URGENT => True
  | MODERATE | LOW => SymptomAnalyzer.urgency_flag a = false
  end.
Proof.
  cbv zeta. unfold SymptomAnalyzer.analyze_symptoms.
  simpl SymptomAnalyzer.priority_level. simpl SymptomAnalyzer.urgency_flag.
  generalize (SymptomAnalyzer._calculate_severity_lightweight
                (SymptomAnalyzer._clean_text text)) as s.
  intro s. unfold SymptomAnalyzer._calculate_priority.
  destruct (Qle_bool 8 s) eqn:H8.
  { apply Qle_bool_iff in H8. apply Qgt_bool_true. lra. }
  destruct (Qle_bool 6 s) eqn:H6; [exact I|].
  apply Qle_bool_false in H6.
  destruct (Qle_bool 4 s); apply Qgt_bool_false; lra.
Qed.

(** X19.  The recommendations follow the priority tier: two severity
    scores of the same tier get the same recommendations for a given
    specialty, and there are always four of them. *)
Theorem recommendations_follow_the_tier (s1 s2 : Q) (specialty : string) :
  SymptomAnalyzer._calculate_priority s1
  = SymptomAnalyzer._calculate_priority s2 ->
  SymptomAnalyzer._generate_recommendations s1 specialty
  = SymptomAnalyzer._generate_recommendations s2 specialty
  /\ List.length (SymptomAnalyzer._generate_recommendations s1 specialty)
     = 4%nat.
Proof.
  unfold SymptomAnalyzer._calculate_priority,
    SymptomAnalyzer._generate_recommendations.
  destruct (Qle_bool 8 s1), (Qle_bool 6 s1), (Qle_bool 4 s1),
    (Qle_bool 8 s2), (Qle_bool 6 s2), (Qle_bool 4 s2);
    intro H; try discriminate H; split; reflexivity.
Qed.

Lemma recommendations_example :
  SymptomAnalyzer._calculate_priority 6
  = SymptomAnalyzer._calculate_priority (31 # 4)
  /\ SymptomAnalyzer._generate_recommendations 6 "Neurology"
     = SymptomAnalyzer._generate_recommendations (31 # 4) "Neurology".
Proof.
  assert (H : SymptomAnalyzer._calculate_priority 6
              = SymptomAnalyzer._calculate_priority (31 # 4))
    by reflexivity.
  split; [exact H|].
  exact (proj1 (recommendations_follow_the_tier 6 (31 # 4) "Neurology" H)).
Defined.

(** ** The symptom page: pain adjustment and empty input *)

Lemma Qle_bool_ext (a x y : Q) :
  (a <= x <-> a <= y) -> Qle_bool a x = Qle_bool a y.
Proof.
  intro H. destruct (Qle_bool a x) eqn:X, (Qle_bool a y) eqn:Y;
    try reflexivity.
  - apply Qle_bool_iff, H, Qle_bool_iff in X. congruence.
  - apply Qle_bool_iff, H, Qle_bool_iff in Y. congruence.
Qed.

Lemma priority_ext (x y : Q) :
  (forall k : Z, inject_Z k <= x <-> inject_Z k <= y) ->
  SymptomAnalyzer._calculate_priority x = SymptomAnalyzer._calculate_priority y.
Proof.
  intro H. unfold SymptomAnalyzer._calculate_priority.
  rewrite (Qle_bool_ext 8 x y (H 8%Z)), (Qle_bool_ext 6 x y (H 6%Z)),
    (Qle_bool_ext 4 x y (H 4%Z)).
  reflexivity.
Qed.

(** Rounding a quotient with a denominator of at most 100 to two places
    does not carry it across an integer. *)
Lemma round_2_keeps_integer_thresholds (k t m : Z) (s : Q) :
  (0 < m <= 100)%Z -> s == inject_Z t / inject_Z m ->
  (inject_Z k <= Py.round s 2 <-> inject_Z k <= s).
Proof.
  intros [Hm Hm100] Hs.
  assert (Hq : 0 < inject_Z m)
    by (change 0 with (inject_Z 0); rewrite <- Zlt_Qlt; exact Hm).
  unfold Py.round. change (inject_Z (10 ^ Z.of_nat 2)) with (inject_Z 100).
  split.
  - intro H. destruct (Qlt_le_dec s (inject_Z k)) as [Hlt|Hle]; [|exact Hle].
    exfalso.
    assert (Ht : (t < k * m)%Z).
    { destruct (Z.lt_ge_cases t (k * m)) as [L|G]; [exact L|]. exfalso.
      assert (Hk : inject_Z k <= inject_Z t / inject_Z m).
      { apply Qle_shift_div_l; [exact Hq|].
        rewrite <- inject_Z_mult, <- Zle_Qle. exact G. }
      rewrite <- Hs in Hk. lra. }
    assert (Hup : s * inject_Z 100 <= inject_Z (100 * k - 1)).
    { rewrite Hs.
      setoid_replace (inject_Z t / inject_Z m * inject_Z 100)
        with (inject_Z (t * 100) / inject_Z m).
      - apply Qle_shift_div_r; [exact Hq|].
        rewrite <- inject_Z_mult, <- Zle_Qle. nia.
      - rewrite inject_Z_mult. field. lra. }
    apply round_half_even_upper in Hup.
    assert (Hr : inject_Z (Py.round_half_even (s * inject_Z 100)) / inject_Z 100
                 <= inject_Z (100 * k - 1) / inject_Z 100).
    { apply Qmult_le_compat_r; [rewrite <- Zle_Qle; exact Hup | discriminate]. }
    assert (Hk : inject_Z (100 * k - 1) / inject_Z 100 < inject_Z k).
    { apply Qlt_shift_div_r; [reflexivity|].
      rewrite <- inject_Z_mult, <- Zlt_Qlt. lia. }
    lra.
  - intro H.
    assert (Hlo : inject_Z (100 * k) <= s * inject_Z 100).
    { rewrite inject_Z_mult, (Qmult_comm (inject_Z 100)).
      apply Qmult_le_compat_r; [exact H | discriminate]. }
    apply round_half_even_lower in Hlo.
    apply Qle_shift_div_l; [reflexivity|].
    rewrite <- inject_Z_mult, <- Zle_Qle. lia.
Qed.

Lemma severity_is_small_quotient (text : string) :
  exists t m : Z,
    (0 < m <= 100)%Z
    /\ SymptomAnalyzer._calculate_severity_lightweight text
       == inject_Z t / inject_Z m.
Proof.
  rewrite severity_unfold.
  destruct (Z.of_nat (List.length (Spec.matched text)) =? 0)%Z eqn:E.
  - exists 3%Z, 1%Z. split; [lia | reflexivity].
  - apply Z.eqb_neq in E.
    exists (Spec.sum_scores (Spec.matched text)),
      (Z.of_nat (List.length (Spec.matched text))).
    split.
    + pose proof (filter_length_le
                    (fun e : string * Z => Py.str_in (fst e) text)
                    Spec.keyword_scores) as Hlen.
      change (List.length Spec.keyword_scores) with 26%nat in Hlen.
      unfold Spec.matched in *. lia.
    + apply Q.min_l.
      apply (average_bounds (Spec.sum_scores (Spec.matched text))
               (Z.of_nat (List.length (Spec.matched text))));
        [lia | apply matched_bounded].
Qed.

Lemma rounded_severity_bounds (text : string) :
  2 <= Py.round (SymptomAnalyzer._calculate_severity_lightweight text) 2 <= 10.
Proof.
  destruct (severity_is_small_quotient text) as [t [m [Hm Hs]]].
  destruct (severity_lightweight_bounds text) as [Hlo Hhi].
  split.
  - change 2 with (inject_Z 2).
    apply (round_2_keeps_integer_thresholds 2 t m _ Hm Hs). exact Hlo.
  - apply round_2_bounds; [lra | exact Hhi].
Qed.

(** X20.  With a pain level between 1 and 10, as the slider gives it, the
    adjusted severity score of the page stays between 0 and 10. *)
Theorem adjusted_severity_between_0_and_10
        (o : SymptomAnalyzer.SetOrder) (text : string) (pain_scale : Z) :
  (1 <= pain_scale <= 10)%Z ->
  0 <= SymptomAnalyzer.severity_score
         (App.adjust_for_pain (SymptomAnalyzer.analyze_symptoms o text)
            pain_scale) <= 10.
Proof.
  intros [H1 H10]. unfold App.adjust_for_pain, SymptomAnalyzer.analyze_symptoms.
  simpl SymptomAnalyzer.severity_score.
  destruct (rounded_severity_bounds (SymptomAnalyzer._clean_text text))
    as [Hlo _].
  split; [|apply Q.le_min_r].
  apply Q.min_glb; [|discriminate].
  assert (Hp : inject_Z (-4) <= inject_Z (pain_scale - 5))
    by (rewrite <- Zle_Qle; lia).
  change (inject_Z (-4)) with (-4 # 1) in Hp.
  lra.
Qed.

Lemma adjusted_severity_example :
  (1 <= 1 <= 10)%Z
  /\ 0 <= SymptomAnalyzer.severity_score
            (App.adjust_for_pain
               (SymptomAnalyzer.analyze_symptoms
                  SymptomAnalyzer.insertion_order "a mild pain in the knee")
               1) <= 10.
Proof.
  assert (H : (1 <= 1 <= 10)%Z) by lia.
  split; [exact H|].
  exact (adjusted_severity_between_0_and_10
           SymptomAnalyzer.insertion_order "a mild pain in the knee" 1 H).
Defined.

(** X21.  The neutral pain level 5 changes nothing: the adjusted severity
    score is the score of [analyze_symptoms], and the priority that the
    page computes again from the rounded score is the priority that
    [analyze_symptoms] computed from the unrounded one. *)
Theorem neutral_pain_keeps_score_and_priority
        (o : SymptomAnalyzer.SetOrder) (text : string) :
  let a := SymptomAnalyzer.analyze_symptoms o text in
  SymptomAnalyzer.severity_score (App.adjust_for_pain a 5)
  == SymptomAnalyzer.severity_score a
  /\ SymptomAnalyzer.priority_level (App.adjust_for_pain a 5)
     = SymptomAnalyzer.priority_level a.
Proof.
  cbv zeta. unfold App.adjust_for_pain, SymptomAnalyzer.analyze_symptoms.
  simpl SymptomAnalyzer.severity_score. simpl SymptomAnalyzer.priority_level.
  set (s := SymptomAnalyzer._calculate_severity_lightweight
              (SymptomAnalyzer._clean_text text)).
  destruct (rounded_severity_bounds (SymptomAnalyzer._clean_text text))
    as [_ Hhi].
  fold s in Hhi.
  destruct (severity_is_small_quotient (SymptomAnalyzer._clean_text text))
    as [t [m [Hm Hs]]].
  fold s in Hs.
  assert (Hadj : Qmin (Py.round s 2 + inject_Z (5 - 5) * (1 # 2)) 10
                 == Py.round s 2).
  { rewrite Q.min_l.
    - change (inject_Z (5 - 5)) with 0. ring.
    - change (inject_Z (5 - 5)) with 0. lra. }
  split; [exact Hadj|].
  apply priority_ext. intro k. rewrite Hadj.
  exact (round_2_keeps_integer_thresholds k t m s Hm Hs).
Qed.

(** X22.  A higher pain level never lowers the adjusted severity score nor
    the weight of the adjusted priority. *)
Theorem more_pain_never_lowers_priority
        (a : SymptomAnalyzer.Analysis) (p1 p2 : Z) :
  (p1 <= p2)%Z ->
  SymptomAnalyzer.severity_score (App.adjust_for_pain a p1)
  <= SymptomAnalyzer.severity_score (App.adjust_for_pain a p2)
  /\ TriageLogic.priority_weights
       (SymptomAnalyzer.priority_level (App.adjust_for_pain a p1))
     <= TriageLogic.priority_weights
          (SymptomAnalyzer.priority_level (App.adjust_for_pain a p2)).
Proof.
  intro H. unfold App.adjust_for_pain.
  simpl SymptomAnalyzer.severity_score. simpl SymptomAnalyzer.priority_level.
  assert (Hs : Qmin (SymptomAnalyzer.severity_score a
                     + inject_Z (p1 - 5) * (1 # 2)) 10
               <= Qmin (SymptomAnalyzer.severity_score a
                        + inject_Z (p2 - 5) * (1 # 2)) 10).
  { apply Q.min_le_compat_r.
    assert (Hp : inject_Z (p1 - 5) <= inject_Z (p2 - 5))
      by (rewrite <- Zle_Qle; lia).
    lra. }
  split; [exact Hs|].
  exact (priority_weights_monotone _ _ Hs).
Qed.

Lemma more_pain_example :
  (3 <= 9)%Z
  /\ TriageLogic.priority_weights
       (SymptomAnalyzer.priority_level
          (App.adjust_for_pain
             (SymptomAnalyzer.analyze_symptoms SymptomAnalyzer.insertion_order
                "headache and nausea") 3))
     <= TriageLogic.priority_weights
          (SymptomAnalyzer.priority_level
             (App.adjust_for_pain
                (SymptomAnalyzer.analyze_symptoms
                   SymptomAnalyzer.insertion_order "headache and nausea") 9)).
Proof.
  assert (H : (3 <= 9)%Z) by lia.
  split; [exact H|].
  exact (proj2 (more_pain_never_lowers_priority
                  (SymptomAnalyzer.analyze_symptoms
                     SymptomAnalyzer.insertion_order "headache and nausea")
                  3 9 H)).
Defined.

Lemma lstrip_nil (l : list ascii) :
  Py.lstrip l = [] <-> forallb Py.is_space l = true.
Proof.
  induction l as [|c l IH]; simpl; [tauto|].
  destruct (Py.is_space c); simpl; [exact IH|].
  split; discriminate.
Qed.

Lemma lstrip_head (l : list ascii) :
  Spec.head_is_space (Py.lstrip l) = false.
Proof.
  induction l as [|c l IH]; [reflexivity|].
  simpl. destruct (Py.is_space c) eqn:E; [exact IH|].
  simpl. exact E.
Qed.

Lemma strip_nil (l : list ascii) :
  Py.strip l = [] <-> forallb Py.is_space l = true.
Proof.
  unfold Py.strip. split.
  - intro H.
    assert (H1 : Py.lstrip (rev (Py.lstrip l)) = []).
    { destruct (Py.lstrip (rev (Py.lstrip l))) as [|c r]; [reflexivity|].
      simpl in H. destruct (rev r); discriminate. }
    apply lstrip_nil in H1.
    apply lstrip_nil.
    destruct (Py.lstrip l) as [|c r] eqn:E; [reflexivity|].
    exfalso. pose proof (lstrip_head l) as Hh. rewrite E in Hh. simpl in Hh.
    assert (Hc : Py.is_space c = true).
    { apply (proj1 (forallb_forall _ _) H1). apply in_rev.
      rewrite rev_involutive. left. reflexivity. }
    congruence.
  - intro H. apply lstrip_nil in H. rewrite H. reflexivity.
Qed.

(** X23.  The page analyses an ASCII text exactly when it has a character
    that is not whitespace; a text of ASCII whitespace only, or the empty
    text, gets the request to describe the symptoms and no analysis. *)
Theorem whitespace_only_text_is_not_analysed
        (o : SymptomAnalyzer.SetOrder) (text : string) (pain_scale : Z) :
  Py.is_ascii text = true ->
  match App.analyze_button o text pain_scale with
  | None => forallb Py.is_space (list_ascii_of_string text) = true
  | Some a =>
      forallb Py.is_space (list_ascii_of_string text) = false
      /\ a = App.adjust_for_pain
               (SymptomAnalyzer.analyze_symptoms o text) pain_scale
  end.
Proof.
  intros _. unfold App.analyze_button.
  destruct (Py.strip (list_ascii_of_string text)) as [|c r] eqn:E.
  - apply strip_nil. exact E.
  - split; [|reflexivity].
    destruct (forallb Py.is_space (list_ascii_of_string text)) eqn:F;
      [|reflexivity].
    apply strip_nil in F. congruence.
Qed.

Lemma whitespace_only_example :
  Py.is_ascii "   " = true
  /\ App.analyze_button SymptomAnalyzer.insertion_order "   " 5 = None
  /\ match App.analyze_button SymptomAnalyzer.insertion_order "   " 5 with
     | None => forallb Py.is_space (list_ascii_of_string "   ") = true
     | Some a =>
         forallb Py.is_space (list_ascii_of_string "   ") = false
         /\ a = App.adjust_for_pain
                  (SymptomAnalyzer.analyze_symptoms
                     SymptomAnalyzer.insertion_order "   ") 5
     end.
Proof.
  assert (Ha : Py.is_ascii "   " = true) by reflexivity.
  split; [exact Ha|]. split; [reflexivity|].
  exact (whitespace_only_text_is_not_analysed
           SymptomAnalyzer.insertion_order "   " 5 Ha).
Defined.

(** X24.  The severity score of a text is never below 2, and the cap at 10
    never takes effect: when a keyword matches, the score is the plain
    average of the scores of the matched keywords. *)
Theorem severity_is_uncapped_average_from_2 (text : string) :
  2 <= SymptomAnalyzer._calculate_severity_lightweight text
  /\ (SymptomAnalyzer.found_symptoms text = []
      /\ SymptomAnalyzer._calculate_severity_lightweight text == 3
      \/ SymptomAnalyzer.found_symptoms text <> []
         /\ SymptomAnalyzer._calculate_severity_lightweight text
            == inject_Z (Spec.sum_scores (Spec.matched text))
               / inject_Z (Z.of_nat
                             (List.length
                                (SymptomAnalyzer.found_symptoms text)))).
Proof.
  split; [exact (proj1 (severity_lightweight_bounds text))|].
  rewrite severity_unfold, <- matched_found, length_map.
  destruct (Spec.matched text) as [|e l] eqn:E.
  - left. split; reflexivity.
  - right. split; [discriminate|].
    rewrite <- E.
    assert (Hpos : (0 < Z.of_nat (List.length (Spec.matched text)))%Z)
      by (rewrite E; simpl List.length; lia).
    destruct (Z.of_nat (List.length (Spec.matched text)) =? 0)%Z eqn:Z0;
      [apply Z.eqb_eq in Z0; lia|].
    apply Q.min_l.
    apply (average_bounds (Spec.sum_scores (Spec.matched text))
             (Z.of_nat (List.length (Spec.matched text))));
      [exact Hpos | apply matched_bounded].
Qed.
